(** * mcp-experiment: the tool-calling loop of [main.go]

    A shallow embedding of [main.go]: the bridge between a chat-completion
    API and a remote MCP tool server.  The Go functions [convertToolsSchema],
    [toolList], [callTool], [printCodeBox], [printResultBox], [fetchModels],
    [showForm] and [main] are translated one by one; the libraries they call
    (encoding/json, the MCP client, the highlighter, the box renderer) are
    the methods of the class [Environment], and what the outside world sends
    during one run is a [Session]. *)

From Stdlib Require Import String Ascii List Arith Lia.
From stdpp Require Import base option list gmap strings.

Set Warnings "-register-all".
Local Open Scope string_scope.
Local Open Scope list_scope.

(** ** Go values *)

(** A Go [error], kept as the message its [Error()] method returns: the
    program only ever formats errors with the verb v. *)
Abbreviation error := string (only parsing).

(** A library call of type [(T, error)]. *)
Inductive result (A : Type) : Type :=
| Ok (a : A)
| Err (err : error).
Arguments Ok {A} a.
Arguments Err {A} err.

(** An [any] ([interface{}]) value as the program meets it: what
    encoding/json decodes into an [any], and the two Go values
    [convertToolsSchema] stores in a schema ([[]string] and
    [map[string]any]).  A Go map is [None] when nil; a float64 is kept as
    the literal it was read from. *)
Inductive any : Type :=
| any_nil
| any_bool (b : bool)
| any_float64 (lit : string)
| any_string (s : string)
| any_slice (l : list any)
| any_strings (l : list string)
| any_map (m : option (gmap string any)).

(** [len(m)] of a map: a nil map has length 0. *)
Definition map_len (m : option (gmap string any)) : nat :=
  match m with
  | Some g => size g
  | None => 0
  end.

(** [m[k]]: reading a missing key, or any key of a nil map, gives the zero
    value of [any], the nil interface. *)
Definition map_index (m : option (gmap string any)) (k : string) : any :=
  match m with
  | Some g => default any_nil (g !! k)
  | None => any_nil
  end.

(** The dynamic type of an [any], as the runtime names it in a panic. *)
Definition typeName (v : any) : string :=
  match v with
  | any_nil => "nil"
  | any_bool _ => "bool"
  | any_float64 _ => "float64"
  | any_string _ => "string"
  | any_slice _ => "[]interface {}"
  | any_strings _ => "[]string"
  | any_map _ => "map[string]interface {}"
  end.

(** A run-time panic of the Go runtime. *)
Inductive PanicValue : Type :=
| IndexOutOfRange (index len : nat)
| InterfaceConversion (dynamic asserted : string).

(** ** The types of the two client libraries *)

Module mcp.

Record ToolInputSchema : Type := {
  Schema_Type : string;
  Properties : option (gmap string any);
  Required : list string
}.

Record Tool : Type := {
  Tool_Name : string;
  Tool_Description : string;
  InputSchema : ToolInputSchema
}.

Record ListToolsResult : Type := { Tools : list Tool }.

Record Implementation : Type := { Impl_Name : string; Impl_Version : string }.

Record InitializeRequest : Type := {
  Init_Method : string;
  ProtocolVersion : string;
  Experimental : option (gmap string any);
  ClientInfo : Implementation
}.

Record CallToolParams : Type := {
  Call_Name : string;
  Call_Arguments : option (gmap string any)
}.

Record CallToolRequest : Type := {
  Call_Method : string;
  Params : CallToolParams
}.

(** A content item of a tool result.  [TextContent] is the textual item;
    every other item (image, audio, resource) is a struct value of another
    type, kept with its type tag and the rest of its fields. *)
Inductive Content : Type :=
| TextContent (Text : string)
| OtherContent (Content_Type : string) (fields : list string).

Record CallToolResult : Type := {
  Result_Content : list Content;
  IsError : bool
}.

(** [mcp.AsTextContent]: the type assertion to [TextContent]. *)
Definition AsTextContent (content : Content) : option string * bool :=
  match content with
  | TextContent text => (Some text, true)
  | OtherContent _ _ => (None, false)
  end.

End mcp.

Module openai.

Record ToolCallFunction : Type := {
  Function_Name : string;
  Function_Arguments : string
}.

Record ChatCompletionMessageToolCall : Type := {
  ID : string;
  Function : ToolCallFunction
}.

Record ChatCompletionMessage : Type := {
  Content : string;
  ToolCalls : list ChatCompletionMessageToolCall
}.

Record ChatCompletionChoice : Type := { Message : ChatCompletionMessage }.

Record ChatCompletion : Type := { Choices : list ChatCompletionChoice }.

(** The four kinds of message the program puts in a conversation. *)
Inductive ChatCompletionMessageParamUnion : Type :=
| SystemMessage (content : string)
| UserMessage (content : string)
| AssistantMessage (content : string) (tool_calls : list ChatCompletionMessageToolCall)
| ToolMessage (content : string) (toolCallID : string).

(** [ChatCompletionMessage.ToParam]: the assistant's message, text and tool
    calls, as a message of the next request. *)
Definition ToParam (m : ChatCompletionMessage) : ChatCompletionMessageParamUnion :=
  AssistantMessage (Content m) (ToolCalls m).

Record FunctionDefinitionParam : Type := {
  Name : string;
  Description : string;
  Parameters : gmap string any
}.

Record ChatCompletionToolParam : Type := { Tool_Function : FunctionDefinitionParam }.

Record ChatCompletionNewParams : Type := {
  Tools : list ChatCompletionToolParam;
  Model : string;
  Messages : list ChatCompletionMessageParamUnion
}.

End openai.

(** A lipgloss style, as the builder calls that made it, in order. *)
Inductive StyleCall : Type :=
| Border (name : string)
| BorderForeground (color : string)
| Padding (vertical horizontal : nat)
| MarginLeft (n : nat)
| BorderTop (on : bool)
| BorderTopForeground (color : string).

Abbreviation Style := (list StyleCall) (only parsing).

(** ** What a run does to the outside *)

(** The calls that leave the process, in the order they are made. *)
Inductive Event : Type :=
| EvStdout (text : string)
| EvInitialize (req : mcp.InitializeRequest)
| EvListTools
| EvCallTool (req : mcp.CallToolRequest)
| EvCompletion (params : openai.ChatCompletionNewParams)
| EvClose.

(** The number of completion calls among some events. *)
Fixpoint completionCalls (events : list Event) : nat :=
  match events with
  | [] => 0
  | EvCompletion _ :: events => S (completionCalls events)
  | _ :: events => completionCalls events
  end.

(** The libraries and the tool server [main.go] is linked against.
    [ServerState] is whatever the tool server remembers between calls. *)
Class Environment : Type := {
  ServerState : Type;
  (** [json.Unmarshal(data, &args)] for [args : map[string]any], starting
      from the nil map: the map it leaves in [args], or its error. *)
  json_Unmarshal : string → result (option (gmap string any));
  (** [quick.Highlight(w, source, lexer, formatter, style)]: what it wrote
      to [w], and its error. *)
  quick_Highlight : string → string → string → string → string * option error;
  (** [Style.Render]. *)
  lipgloss_Render : Style → string → string;
  (** What fmt prints, under the verb v, between the braces of a struct
      value: its fields separated by spaces. *)
  fmt_fields : mcp.Content → string;
  LATEST_PROTOCOL_VERSION : string;
  client_Initialize : mcp.InitializeRequest → ServerState → option error * ServerState;
  client_ListTools : ServerState → result mcp.ListToolsResult * ServerState;
  client_CallTool : mcp.CallToolRequest → ServerState → result mcp.CallToolResult * ServerState
}.

(** [fmt.Sprintf] with the verb v on a content item: a struct value is
    printed as its fields between braces. *)
Definition Sprintf_v `{Environment} (content : mcp.Content) : string :=
  "{" +:+ fmt_fields content +:+ "}".

(** What the outside world answers during one run of [main]: the start of
    the MCP client, the environment variable, the model pager (the
    identifiers it yields, and the error it ends with), the form, and the
    responses of the completion API, in the order they arrive. *)
Record Session : Type := {
  NewStreamableHttpClient : option error;
  client_Start : option error;
  OPENAI_API_KEY : option string;
  ListAutoPaging : list string * option error;
  form_Run : result (string * string);
  completions : list (result openai.ChatCompletion)
}.

(** ** The program monad *)

(** How a piece of the program ends: it returns, it calls [log.Fatal] (the
    message is logged and the process exits with status 1), it panics, or
    it is still waiting for a completion the session has not recorded. *)
Inductive Outcome (A : Type) : Type :=
| Returned (a : A)
| Fatal (msg : string)
| Panicked (p : PanicValue)
| Awaiting.
Arguments Returned {A} a.
Arguments Fatal {A} msg.
Arguments Panicked {A} p.
Arguments Awaiting {A}.

(** The state a run threads through its calls: the tool server, the
    events so far, and [params.Messages], the conversation [main] appends
    to (nil until [main] builds [params]). *)
Record State `{Environment} : Type := {
  server : ServerState;
  trace : list Event;
  Messages : list openai.ChatCompletionMessageParamUnion
}.

Definition Prog `{Environment} (A : Type) : Type := State → Outcome A * State.

#[global] Instance Prog_ret `{Environment} : MRet Prog :=
  λ A (a : A) st, (Returned a, st).

#[global] Instance Prog_bind `{Environment} : MBind Prog :=
  λ A B (k : A → Prog B) (m : Prog A) st,
    match m st with
    | (Returned a, st') => k a st'
    | (Fatal msg, st') => (Fatal msg, st')
    | (Panicked p, st') => (Panicked p, st')
    | (Awaiting, st') => (Awaiting, st')
    end.

Definition log_Fatal `{Environment} {A : Type} (msg : string) : Prog A :=
  λ st, (Fatal msg, st).

Definition panic `{Environment} {A : Type} (p : PanicValue) : Prog A :=
  λ st, (Panicked p, st).

Definition await `{Environment} {A : Type} : Prog A :=
  λ st, (Awaiting, st).

Definition emit `{Environment} (e : Event) : Prog unit :=
  λ st, (Returned (), {| server := server st; trace := trace st ++ [e]; Messages := Messages st |}).

(** [params.Messages = append(params.Messages, m)]. *)
Definition appendMessage `{Environment} (m : openai.ChatCompletionMessageParamUnion) : Prog unit :=
  λ st, (Returned (), {| server := server st; trace := trace st; Messages := Messages st ++ [m] |}).

Definition setMessages `{Environment} (ms : list openai.ChatCompletionMessageParamUnion) : Prog unit :=
  λ st, (Returned (), {| server := server st; trace := trace st; Messages := ms |}).

Definition getMessages `{Environment} : Prog (list openai.ChatCompletionMessageParamUnion) :=
  λ st, (Returned (Messages st), st).

(** A call to the tool server: the event is recorded, the server moves. *)
Definition remote `{Environment} {A : Type} (e : Event) (call : ServerState → A * ServerState) : Prog A :=
  λ st, let '(a, s) := call (server st) in
        (Returned a, {| server := s; trace := trace st ++ [e]; Messages := Messages st |}).

(** [defer f()]: [f] runs when the body returns or panics, not when the
    process exits under [log.Fatal]. *)
Definition defer `{Environment} {A : Type} (e : Event) (body : Prog A) : Prog A :=
  λ st, match body st with
        | (Fatal msg, st') => (Fatal msg, st')
        | (Awaiting, st') => (Awaiting, st')
        | (o, st') => (o, {| server := server st'; trace := trace st' ++ [e]; Messages := Messages st' |})
        end.

(** ** The program *)

Definition newline : string := String "010"%char EmptyString.

(** [fmt.Sprintf(format, a)] for the formats of this program: text with one
    verb (s or v) whose operand is a string or an error. *)
Fixpoint Sprintf (format : string) (a : string) : string :=
  match format with
  | String "%"%char (String _ rest) => a +:+ rest
  | String c rest => String c (Sprintf rest a)
  | EmptyString => EmptyString
  end.

Definition defaultModel : string := "google/gemini-2.5-flash".

Definition systemMessages : list openai.ChatCompletionMessageParamUnion :=
  [ openai.SystemMessage "To be a fast and efficient agent, batch tool calls together.";
    openai.SystemMessage "Do everything using a Python sandbox. Don't use built-in tool calling, use the Python sandbox.";
    openai.SystemMessage "Don't try to calculate yourself or retrieve results from memory. You compute everything.";
    openai.SystemMessage "Output the result and ONLY the result." ].

(** [print(s, a)] is [fmt.Printf(s+"\n", a)]. *)
Definition print `{Environment} (s : string) (a : string) : Prog unit :=
  emit (EvStdout (Sprintf (s +:+ newline) a)).

Definition codeBoxStyle : list StyleCall :=
  [Border "rounded"; BorderForeground "62"; Padding 1 2; MarginLeft 2].

Definition resultBoxStyle : list StyleCall :=
  [Border "rounded"; BorderForeground "42"; Padding 1 2; MarginLeft 2].

(** main.go, lines 49-57: the styled box.  Its text is what the
    highlighter wrote, followed by the raw content when it failed. *)
Definition styledBox `{Environment} (content language : string) : string :=
  let '(buf, err) := quick_Highlight content language "terminal256" "monokai" in
  let buf := match err with
             | Some _ => buf +:+ content
             | None => buf
             end in
  lipgloss_Render (codeBoxStyle ++ [BorderTop true; BorderTopForeground "62"]) buf.

(** main.go, lines 48-60. *)
Definition printCodeBox `{Environment} (content language : string) : Prog unit :=
  emit (EvStdout (styledBox content language +:+ newline)).

(** main.go, lines 62-64. *)
Definition printResultBox `{Environment} (content : string) : Prog unit :=
  emit (EvStdout (lipgloss_Render resultBoxStyle content +:+ newline)).

(** main.go, lines 191-203: the schema built for one tool. *)
Definition toolSchema (tool : mcp.Tool) : gmap string any :=
  let schema : gmap string any := {[ "type" := any_string "object" ]} in
  let schema :=
    if Nat.ltb 0 (map_len (mcp.Properties (mcp.InputSchema tool)))
    then <[ "properties" := any_map (mcp.Properties (mcp.InputSchema tool)) ]> schema
    else <[ "properties" := any_map (Some ∅) ]> schema in
  let schema :=
    if Nat.ltb 0 (length (mcp.Required (mcp.InputSchema tool)))
    then <[ "required" := any_strings (mcp.Required (mcp.InputSchema tool)) ]> schema
    else schema in
  schema.

(** main.go, lines 205-211. *)
Definition openaiTool (tool : mcp.Tool) : openai.ChatCompletionToolParam :=
  {| openai.Tool_Function :=
       {| openai.Name := mcp.Tool_Name tool;
          openai.Description := mcp.Tool_Description tool;
          openai.Parameters := toolSchema tool |} |}.

(** main.go, lines 187-217: the loop appends one entry per tool to a slice
    that starts nil. *)
Definition convertToolsSchema (tools : mcp.ListToolsResult) : list openai.ChatCompletionToolParam :=
  fold_left (λ openaiTools tool, openaiTools ++ [openaiTool tool]) (mcp.Tools tools) [].

(** main.go, lines 220-234. *)
Definition initRequest `{Environment} : mcp.InitializeRequest :=
  {| mcp.Init_Method := "initialize";
     mcp.ProtocolVersion := LATEST_PROTOCOL_VERSION;
     mcp.Experimental := Some ∅;
     mcp.ClientInfo := {| mcp.Impl_Name := "mcp-client"; mcp.Impl_Version := "1.0.0" |} |}.

(** main.go, lines 219-249. *)
Definition toolList `{Environment} : Prog mcp.ListToolsResult :=
  err ← remote (EvInitialize initRequest) (client_Initialize initRequest);
  match err with
  | Some err => log_Fatal (Sprintf "Failed to initialize MCP client: %v" err)
  | None =>
      r ← remote EvListTools client_ListTools;
      match r with
      | Err err => log_Fatal (Sprintf "Failed to list tools: %v" err)
      | Ok toolsResult =>
          if Nat.eqb (length (mcp.Tools toolsResult)) 0
          then log_Fatal "No tools available from MCP server"
          else mret toolsResult
      end
  end.

(** [v.(string)], the unchecked type assertion. *)
Definition assertString `{Environment} (v : any) : Prog string :=
  match v with
  | any_string s => mret s
  | _ => panic (InterfaceConversion (typeName v) "string")
  end.

(** main.go, lines 278-286: the text of a tool result. *)
Definition resultText `{Environment} (toolResult : mcp.CallToolResult) : string :=
  match mcp.Result_Content toolResult with
  | content :: _ =>
      match mcp.AsTextContent content with
      | (Some textContent, true) => textContent
      | _ => Sprintf_v content
      end
  | [] => ""
  end.

(** main.go, lines 263-271: the request sent for a tool call. *)
Definition callToolRequest (toolCall : openai.ChatCompletionMessageToolCall)
  (args : option (gmap string any)) : mcp.CallToolRequest :=
  {| mcp.Call_Method := "tools/call";
     mcp.Params := {| mcp.Call_Name := openai.Function_Name (openai.Function toolCall);
                      mcp.Call_Arguments := args |} |}.

(** main.go, lines 251-289.  The Go function returns [(string, error)]. *)
Definition callTool `{Environment} (toolCall : openai.ChatCompletionMessageToolCall)
  : Prog (string * option error) :=
  match json_Unmarshal (openai.Function_Arguments (openai.Function toolCall)) with
  | Err err => mret ("", Some (Sprintf "failed to unmarshal tool arguments: %v" err))
  | Ok args =>
      (if String.eqb (openai.Function_Name (openai.Function toolCall)) "sandbox_run_code"
       then code ← assertString (map_index args "code"); printCodeBox code "python"
       else mret ());;
      let mcpToolRequest := callToolRequest toolCall args in
      r ← remote (EvCallTool mcpToolRequest) (client_CallTool mcpToolRequest);
      match r with
      | Err err => mret ("", Some (Sprintf "failed to call tool: %v" err))
      | Ok toolResult => mret (resultText toolResult, None)
      end
  end.

(** main.go, lines 130-140: the loop over the tool calls of one turn. *)
Fixpoint dispatchToolCalls `{Environment} (toolCalls : list openai.ChatCompletionMessageToolCall)
  : Prog unit :=
  match toolCalls with
  | [] => mret ()
  | toolCall :: toolCalls =>
      '(result, err) ← callTool toolCall;
      match err with
      | Some err => log_Fatal (Sprintf "Failed to call tool: %v" err)
      | None =>
          appendMessage (openai.ToolMessage result (openai.ID toolCall));;
          dispatchToolCalls toolCalls
      end
  end.

(** [s[i]] on a slice, with the runtime's bounds check. *)
Definition index `{Environment} {A : Type} (s : list A) (i : nat) : Prog A :=
  match s !! i with
  | Some x => mret x
  | None => panic (IndexOutOfRange i (length s))
  end.

(** main.go, lines 110-142: the loop of [main].  Each iteration makes one
    completion call, answered by the next recorded response. *)
Fixpoint agentLoop `{Environment} (toolsSchema : list openai.ChatCompletionToolParam)
  (model : string) (responses : list (result openai.ChatCompletion)) : Prog unit :=
  messages ← getMessages;
  emit (EvCompletion {| openai.Tools := toolsSchema; openai.Model := model;
                        openai.Messages := messages |});;
  match responses with
  | [] => await
  | Err err :: _ => log_Fatal (Sprintf "Failed to create chat completion: %v" err)
  | Ok completion :: responses =>
      choice ← index (openai.Choices completion) 0;
      (if String.eqb (openai.Content (openai.Message choice)) ""
       then mret ()
       else printResultBox (openai.Content (openai.Message choice)));;
      let toolCalls := openai.ToolCalls (openai.Message choice) in
      if Nat.eqb (length toolCalls) 0
      then mret ()
      else
        appendMessage (openai.ToParam (openai.Message choice));;
        dispatchToolCalls toolCalls;;
        agentLoop toolsSchema model responses
  end.

(** main.go, lines 170-185, over a pager that yields [rest] and then ends
    with [err]: [cur] is what [models.Current()] holds. *)
Fixpoint fetchModels_from (cur : string) (rest : list string) (err : option error)
  (res : list string) : list string * option error :=
  let res := res ++ [cur] in
  match rest with
  | next :: rest => fetchModels_from next rest err res
  | [] =>
      match err with
      | Some err => ([], Some err)
      | None => (res, None)
      end
  end.

Definition fetchModels (pager : list string * option error) : list string * option error :=
  fetchModels_from "" (fst pager) (snd pager) [].

(** main.go, lines 144-168. *)
Definition showForm `{Environment} (s : Session) (models : list string)
  : Prog (string * string * option error) :=
  match form_Run s with
  | Err err => log_Fatal (Sprintf "Failed to run input: %v" err)
  | Ok (question, model) => mret (question, model, None)
  end.

(** main.go, lines 66-142. *)
Definition main `{Environment} (s : Session) : Prog unit :=
  match NewStreamableHttpClient s with
  | Some err => log_Fatal (Sprintf "Failed to create MCP client: %v" err)
  | None =>
      defer EvClose (
        match client_Start s with
        | Some err => log_Fatal (Sprintf "Failed to start MCP client: %v" err)
        | None =>
            toolsResult ← toolList;
            let toolsSchema := convertToolsSchema toolsResult in
            match OPENAI_API_KEY s with
            | None => log_Fatal "OPENAI_API_KEY environment variable not set"
            | Some apiKey =>
                match fetchModels (ListAutoPaging s) with
                | (_, Some err) => log_Fatal (Sprintf "Failed to fetch models: %v" err)
                | (models, None) =>
                    '(question, model, err) ← showForm s models;
                    match err with
                    | Some err => log_Fatal (Sprintf "Failed to show form: %v" err)
                    | None =>
                        print "Query: %s" question;;
                        setMessages (systemMessages ++ [openai.UserMessage question]);;
                        agentLoop toolsSchema model (completions s)
                    end
                end
            end
        end)
  end.

(** ** A concrete environment

    A tool server with the sandbox tool and three test tools, and a decoder
    that knows the argument payloads of the examples below.  As
    [json.Unmarshal] does, it decodes the literal null without error and
    leaves the map nil, and it rejects the payload oops with the error
    text of encoding/json; every other payload it does not know is
    rejected under a placeholder text. *)

Definition dquote : string := String "034"%char EmptyString.

(** The payload [{"code":"c"}]. *)
Definition codePayload (c : string) : string :=
  "{" +:+ dquote +:+ "code" +:+ dquote +:+ ":" +:+ dquote +:+ c +:+ dquote +:+ "}".

(** The payload [{"code":1}]. *)
Definition numberPayload : string :=
  "{" +:+ dquote +:+ "code" +:+ dquote +:+ ":1}".

Definition sample_Unmarshal (data : string) : result (option (gmap string any)) :=
  if String.eqb data (codePayload "1+1") then Ok (Some {[ "code" := any_string "1+1" ]})
  else if String.eqb data (codePayload "7*6") then Ok (Some {[ "code" := any_string "7*6" ]})
  else if String.eqb data (codePayload "1/0") then Ok (Some {[ "code" := any_string "1/0" ]})
  else if String.eqb data numberPayload then Ok (Some {[ "code" := any_float64 "1" ]})
  else if String.eqb data "{}" then Ok (Some ∅)
  else if String.eqb data "null" then Ok None
  else if String.eqb data "oops"
  then Err "invalid character 'o' looking for beginning of value"
  else Err "invalid JSON".

Definition sample_tool : mcp.Tool :=
  {| mcp.Tool_Name := "sandbox_run_code";
     mcp.Tool_Description := "Run code in a sandbox";
     mcp.InputSchema :=
       {| mcp.Schema_Type := "object";
          mcp.Properties := Some {[ "code" := any_map (Some {[ "type" := any_string "string" ]}) ]};
          mcp.Required := ["code"] |} |}.

(** A tool that declares no input at all. *)
Definition bare_tool : mcp.Tool :=
  {| mcp.Tool_Name := "sandbox_stop";
     mcp.Tool_Description := "Stop the sandbox";
     mcp.InputSchema :=
       {| mcp.Schema_Type := "object"; mcp.Properties := None; mcp.Required := [] |} |}.

(** The server counts the calls it has answered.  It evaluates two
    programs, draws a picture, answers [sandbox_stop] with no content, and
    knows no other tool. *)
Definition sample_CallTool (req : mcp.CallToolRequest) (calls : nat)
  : result mcp.CallToolResult * nat :=
  let name := mcp.Call_Name (mcp.Params req) in
  let code := map_index (mcp.Call_Arguments (mcp.Params req)) "code" in
  let text (s : string) := Ok {| mcp.Result_Content := [mcp.TextContent s]; mcp.IsError := false |} in
  ( if String.eqb name "sandbox_run_code" then
      match code with
      | any_string "1+1" => text "2"
      | any_string "7*6" => text "42"
      | _ => Err "sandbox: cannot evaluate"
      end
    else if String.eqb name "sandbox_plot" then
      Ok {| mcp.Result_Content := [mcp.OtherContent "image" ["aGk="; "image/png"]];
            mcp.IsError := false |}
    else if String.eqb name "sandbox_stop" then
      Ok {| mcp.Result_Content := []; mcp.IsError := false |}
    else Err "tool not found",
    S calls ).

Definition sample_fields (content : mcp.Content) : string :=
  match content with
  | mcp.TextContent text => "{<nil>} text " +:+ text
  | mcp.OtherContent type fields => "{<nil>} " +:+ type +:+ " " +:+ String.concat " " fields
  end.

Definition sampleEnv : Environment :=
  {| ServerState := nat;
     json_Unmarshal := sample_Unmarshal;
     quick_Highlight := λ source _ _ _, (source, None);
     lipgloss_Render := λ _ text, "[" +:+ text +:+ "]";
     fmt_fields := sample_fields;
     LATEST_PROTOCOL_VERSION := "2025-03-26";
     client_Initialize := λ _ calls, (None, S calls);
     client_ListTools := λ calls, (Ok {| mcp.Tools := [sample_tool; bare_tool] |}, S calls);
     client_CallTool := sample_CallTool |}.

(** A server that cannot be reached, one that lists no tool, and one whose
    listing fails: [sampleEnv] with another handshake or listing. *)
Definition unreachableEnv : Environment :=
  {| ServerState := nat;
     json_Unmarshal := sample_Unmarshal;
     quick_Highlight := λ source _ _ _, (source, None);
     lipgloss_Render := λ _ text, "[" +:+ text +:+ "]";
     fmt_fields := sample_fields;
     LATEST_PROTOCOL_VERSION := "2025-03-26";
     client_Initialize := λ _ calls, (Some "connection refused", S calls);
     client_ListTools := λ calls, (Err "connection refused", S calls);
     client_CallTool := sample_CallTool |}.

Definition emptyEnv : Environment :=
  {| ServerState := nat;
     json_Unmarshal := sample_Unmarshal;
     quick_Highlight := λ source _ _ _, (source, None);
     lipgloss_Render := λ _ text, "[" +:+ text +:+ "]";
     fmt_fields := sample_fields;
     LATEST_PROTOCOL_VERSION := "2025-03-26";
     client_Initialize := λ _ calls, (None, S calls);
     client_ListTools := λ calls, (Ok {| mcp.Tools := [] |}, S calls);
     client_CallTool := sample_CallTool |}.

Definition toolCall (id name arguments : string) : openai.ChatCompletionMessageToolCall :=
  {| openai.ID := id;
     openai.Function := {| openai.Function_Name := name; openai.Function_Arguments := arguments |} |}.

(** A completion with one choice, and the response that delivers it. *)
Definition choiceOf (content : string) (toolCalls : list openai.ChatCompletionMessageToolCall)
  : openai.ChatCompletionChoice :=
  {| openai.Message := {| openai.Content := content; openai.ToolCalls := toolCalls |} |}.

Definition completionOf (content : string)
  (toolCalls : list openai.ChatCompletionMessageToolCall) : openai.ChatCompletion :=
  {| openai.Choices := [choiceOf content toolCalls] |}.

Definition completion (content : string) (toolCalls : list openai.ChatCompletionMessageToolCall)
  : result openai.ChatCompletion :=
  Ok (completionOf content toolCalls).

(** The state [main] starts in. *)
Definition start (E : Environment) (s : @ServerState E) : @State E :=
  {| server := s; trace := []; Messages := [] |}.

(** The call of the end-to-end scenario, and the state in which [main]
    enters its loop there: the handshake and the listing are done, the
    conversation is seeded. *)
Definition sandboxCall : openai.ChatCompletionMessageToolCall :=
  toolCall "call_1" "sandbox_run_code" (codePayload "7*6").

Definition seeded : @State sampleEnv :=
  @Build_State sampleEnv 2 [] (systemMessages ++ [openai.UserMessage "compute 7*6"]).

(** The session of the end-to-end scenario: the task, one tool call to the
    sandbox, and the answer. *)
Definition sampleSession : Session :=
  {| NewStreamableHttpClient := None;
     client_Start := None;
     OPENAI_API_KEY := Some "sk-test";
     ListAutoPaging := (["google/gemini-2.5-flash"], None);
     form_Run := Ok ("compute 7*6", defaultModel);
     completions :=
       [ completion "" [sandboxCall]; completion "42" [] ] |}.

(** The same session without the key of the completion API, and the
    state discovery leaves on the sample server. *)
Definition keylessSession : Session :=
  {| NewStreamableHttpClient := None;
     client_Start := None;
     OPENAI_API_KEY := None;
     ListAutoPaging := (["google/gemini-2.5-flash"], None);
     form_Run := Ok ("compute 7*6", defaultModel);
     completions := [] |}.

Definition discovered : @State sampleEnv :=
  @Build_State sampleEnv 2 [EvInitialize (@initRequest sampleEnv); EvListTools] [].

(** The responses of the end-to-end scenario. *)
Definition sampleResponses : list (result openai.ChatCompletion) :=
  [completion "" [sandboxCall]; completion "42" []].

(** ** Reading a schema back

    A translated schema is again a JSON-Schema object with the keys
    [type], [properties] and [required], which is what a tool descriptor's
    input schema is decoded from.  [descriptorOf] reads a translated tool
    back as a descriptor, so that the translation can be applied to its own
    result. *)
Definition descriptorOf (p : openai.ChatCompletionToolParam) : mcp.Tool :=
  let schema := openai.Parameters (openai.Tool_Function p) in
  {| mcp.Tool_Name := openai.Name (openai.Tool_Function p);
     mcp.Tool_Description := openai.Description (openai.Tool_Function p);
     mcp.InputSchema :=
       {| mcp.Schema_Type := match schema !! "type" with
                             | Some (any_string t) => t
                             | _ => ""
                             end;
          mcp.Properties := match schema !! "properties" with
                            | Some (any_map m) => m
                            | _ => None
                            end;
          mcp.Required := match schema !! "required" with
                          | Some (any_strings l) => l
                          | _ => []
                          end |} |}.

(** A descriptor declares properties when its map of properties has an
    entry. *)
Definition declaresProperties (tool : mcp.Tool) : Prop :=
  ∃ g, mcp.Properties (mcp.InputSchema tool) = Some g ∧ g ≠ ∅.

(** ** Vocabulary of the statements *)

(** [st] after some more events. *)
Definition addEvents `{Environment} (events : list Event) (st : State) : State :=
  {| server := server st; trace := trace st ++ events; Messages := Messages st |}.

(** [st] after one more message in the conversation. *)
Definition addMessage `{Environment} (m : openai.ChatCompletionMessageParamUnion) (st : State)
  : State :=
  {| server := server st; trace := trace st; Messages := Messages st ++ [m] |}.

(** The request of the completion call made in state [st]. *)
Definition completionEvent `{Environment} (toolsSchema : list openai.ChatCompletionToolParam)
  (model : string) (st : State) : Event :=
  EvCompletion {| openai.Tools := toolsSchema; openai.Model := model;
                  openai.Messages := Messages st |}.

(** A piece of the program ended the process: by [log.Fatal] or a panic. *)
Definition aborted {A : Type} (o : Outcome A) : Prop :=
  match o with
  | Fatal _ | Panicked _ => True
  | Returned _ | Awaiting => False
  end.

(** The tool calls a response carries: those of its first choice. *)
Definition toolCallsOf (r : result openai.ChatCompletion)
  : option (list openai.ChatCompletionMessageToolCall) :=
  match r with
  | Ok completion =>
      match openai.Choices completion with
      | choice :: _ => Some (openai.ToolCalls (openai.Message choice))
      | [] => None
      end
  | Err _ => None
  end.

(** A response that is a completion has at least one choice. *)
Definition hasChoice (r : result openai.ChatCompletion) : Prop :=
  match r with
  | Ok completion => openai.Choices completion ≠ []
  | Err _ => True
  end.

(** [Dispatched st toolCalls results st']: starting in [st], each call of
    [toolCalls] in turn was dispatched by [callTool] and returned without
    error, the calls returned the texts [results], and each text was
    appended, as a tool message under its call's identifier, before the
    next call was dispatched; [st'] is the state after the last. *)
Inductive Dispatched `{Environment}
  : State → list openai.ChatCompletionMessageToolCall → list string → State → Prop :=
| Dispatched_nil (st : State) : Dispatched st [] [] st
| Dispatched_cons (st st1 st' : State) (toolCall : openai.ChatCompletionMessageToolCall)
    (toolCalls : list openai.ChatCompletionMessageToolCall) (result : string)
    (results : list string) :
    callTool toolCall st = (Returned (result, None), st1) →
    Dispatched (addMessage (openai.ToolMessage result (openai.ID toolCall)) st1)
      toolCalls results st' →
    Dispatched st (toolCall :: toolCalls) (result :: results) st'.

(** The tool messages that answer [toolCalls] with [results]. *)
Definition toolMessages (toolCalls : list openai.ChatCompletionMessageToolCall)
  (results : list string) : list openai.ChatCompletionMessageParamUnion :=
  zip_with (λ toolCall result, openai.ToolMessage result (openai.ID toolCall)) toolCalls results.

(** What [callTool] returns once the server has answered. *)
Definition returnOf `{Environment} (r : result mcp.CallToolResult) : string * option string :=
  match r with
  | Ok toolResult => (resultText toolResult, None)
  | Err err => ("", Some (Sprintf "failed to call tool: %v" err))
  end.

(** The event of printing an assistant's text, when it has one. *)
Definition contentDisplay `{Environment} (content : string) : list Event :=
  if String.eqb content ""
  then []
  else [EvStdout (lipgloss_Render resultBoxStyle content +:+ newline)].

(** The state in which a turn starts dispatching: the completion call has
    been made, the text of the response shown, and the assistant's message
    appended. *)
Definition turnStart `{Environment} (toolsSchema : list openai.ChatCompletionToolParam)
  (model : string) (message : openai.ChatCompletionMessage) (st : State) : State :=
  addMessage (openai.ToParam message)
    (addEvents (completionEvent toolsSchema model st :: contentDisplay (openai.Content message)) st).

(** [Undispatched st toolCall o st']: in [st], [callTool] gives no result
    for [toolCall], and leaves the state [st']: it returns an error, for
    which [o] is the fatal exit of [main], or it panics with [o]. *)
Definition Undispatched `{Environment} (st : State)
  (toolCall : openai.ChatCompletionMessageToolCall) (o : Outcome unit) (st' : State) : Prop :=
  (∃ err : string,
     callTool toolCall st = (Returned ("", Some err), st') ∧
     o = Fatal (Sprintf "Failed to call tool: %v" err)) ∨
  (∃ p : PanicValue, callTool toolCall st = (Panicked p, st') ∧ o = Panicked p).

(** A JSON text that encodes an object, a key-value mapping, starts with
    an opening brace after its leading white space.  [beginsObject] is
    that test: a payload that fails it encodes no mapping. *)
Definition isSpace (c : ascii) : bool :=
  Ascii.eqb c " " || Ascii.eqb c "009" || Ascii.eqb c "010" || Ascii.eqb c "013".

Fixpoint beginsObject (data : string) : bool :=
  match data with
  | String c rest => if isSpace c then beginsObject rest else Ascii.eqb c "{"
  | EmptyString => false
  end.

(** ** Vocabulary of the further statements *)

(** The requests of the completion calls among some events, in order. *)
Fixpoint requestsOf (events : list Event) : list openai.ChatCompletionNewParams :=
  match events with
  | [] => []
  | EvCompletion params :: events => params :: requestsOf events
  | _ :: events => requestsOf events
  end.

(** The requests sent to the tool server among some events, in order. *)
Fixpoint invocationsOf (events : list Event) : list mcp.CallToolRequest :=
  match events with
  | [] => []
  | EvCallTool req :: events => req :: invocationsOf events
  | _ :: events => invocationsOf events
  end.

(** The events of discovery, of a tool dispatch, and of the loop. *)
Definition discoveryEvent (e : Event) : Prop :=
  match e with
  | EvInitialize _ | EvListTools => True
  | _ => False
  end.

Definition dispatchEvent (e : Event) : Prop :=
  match e with
  | EvStdout _ | EvCallTool _ => True
  | _ => False
  end.

Definition loopEvent (e : Event) : Prop :=
  match e with
  | EvStdout _ | EvCallTool _ | EvCompletion _ => True
  | _ => False
  end.

(** [emits P m]: whatever the state, [m] only adds events to the trace,
    and every event it adds satisfies [P]. *)
Definition emits `{Environment} {A : Type} (P : Event → Prop) (m : Prog A) : Prop :=
  ∀ st : State, ∃ events : list Event,
    trace (m st).2 = trace st ++ events ∧ Forall P events.

(** [fatals P m]: every message [m] ends the process with, by
    [log.Fatal], satisfies [P]. *)
Definition fatals `{Environment} {A : Type} (P : string → Prop) (m : Prog A) : Prop :=
  ∀ (st st' : State) (msg : string), m st = (Fatal msg, st') → P msg.

(** [req] is the request for [toolCall]: its name, with the arguments its
    payload decodes to. *)
Definition sentFor `{Environment} (toolCall : openai.ChatCompletionMessageToolCall)
  (req : mcp.CallToolRequest) : Prop :=
  ∃ args : option (gmap string any),
    json_Unmarshal (openai.Function_Arguments (openai.Function toolCall)) = Ok args ∧
    req = callToolRequest toolCall args.

(** The name under which a translated tool is offered to the model. *)
Definition offeredName (p : openai.ChatCompletionToolParam) : string :=
  openai.Name (openai.Tool_Function p).

(** * Properties *)

(** ** Schema translation *)

Lemma fold_left_snoc_map {A B : Type} (f : A → B) (l : list A) (acc : list B) :
  fold_left (λ acc x, acc ++ [f x]) l acc = acc ++ map f l.
Proof.
  revert acc. induction l as [|x l IH]; intros acc; simpl.
  - by rewrite app_nil_r.
  - rewrite IH. by rewrite <- app_assoc.
Qed.

Lemma convertToolsSchema_map (tools : mcp.ListToolsResult) :
  convertToolsSchema tools = map openaiTool (mcp.Tools tools).
Proof. unfold convertToolsSchema. by rewrite fold_left_snoc_map. Qed.

Lemma map_len_positive (m : option (gmap string any)) :
  Nat.ltb 0 (map_len m) = true ↔ ∃ g, m = Some g ∧ g ≠ ∅.
Proof.
  rewrite Nat.ltb_lt. destruct m as [g|]; simpl.
  - split.
    + intros Hlt. exists g. split; [done|]. intros ->. rewrite map_size_empty in Hlt. lia.
    + intros (g' & [= <-] & Hne). destruct (size g) eqn:Hsz; [|lia].
      by apply map_size_empty_inv in Hsz.
  - split; [lia|]. by intros (g & ? & _).
Qed.

Lemma toolSchema_type (tool : mcp.Tool) :
  toolSchema tool !! "type" = Some (any_string "object").
Proof. unfold toolSchema. repeat case_match; by simplify_map_eq. Qed.

Lemma toolSchema_properties_declared (tool : mcp.Tool) :
  declaresProperties tool →
  toolSchema tool !! "properties" = Some (any_map (mcp.Properties (mcp.InputSchema tool))).
Proof.
  intros Hd. apply map_len_positive in Hd. unfold toolSchema. rewrite Hd.
  case_match; by simplify_map_eq.
Qed.

Lemma toolSchema_properties_synthesized (tool : mcp.Tool) :
  ¬ declaresProperties tool →
  toolSchema tool !! "properties" = Some (any_map (Some ∅)).
Proof.
  intros Hd. unfold toolSchema.
  destruct (Nat.ltb 0 (map_len _)) eqn:Hlen.
  - by apply map_len_positive in Hlen.
  - case_match; by simplify_map_eq.
Qed.

Lemma toolSchema_required (tool : mcp.Tool) :
  toolSchema tool !! "required" =
    match mcp.Required (mcp.InputSchema tool) with
    | [] => None
    | _ :: _ => Some (any_strings (mcp.Required (mcp.InputSchema tool)))
    end.
Proof.
  unfold toolSchema. destruct (mcp.Required _) as [|r rs]; simpl;
    case_match; by simplify_map_eq.
Qed.

Lemma toolSchema_keys (tool : mcp.Tool) (k : string) :
  is_Some (toolSchema tool !! k) → k = "type" ∨ k = "properties" ∨ k = "required".
Proof.
  unfold toolSchema. intros [v Hv].
  destruct (decide (k = "type")) as [|H1]; [by left|].
  destruct (decide (k = "properties")) as [|H2]; [by right; left|].
  destruct (decide (k = "required")) as [|H3]; [by right; right|].
  exfalso. repeat case_match; by simplify_map_eq.
Qed.

(** C4.  [convertToolsSchema] yields one tool per descriptor, in order,
    under the descriptor's name and description.  Its schema has type
    "object"; its properties are the descriptor's when the descriptor
    declares any, and a present, empty map otherwise; it has a required
    list exactly when the descriptor's is non-empty, and then the same
    list; it has no other key. *)
Theorem convertToolsSchema_shape (tools : mcp.ListToolsResult) :
  length (convertToolsSchema tools) = length (mcp.Tools tools) ∧
  ∀ (i : nat) (tool : mcp.Tool),
    mcp.Tools tools !! i = Some tool →
    ∃ p : openai.ChatCompletionToolParam,
      convertToolsSchema tools !! i = Some p ∧
      openai.Name (openai.Tool_Function p) = mcp.Tool_Name tool ∧
      openai.Description (openai.Tool_Function p) = mcp.Tool_Description tool ∧
      let schema := openai.Parameters (openai.Tool_Function p) in
      schema !! "type" = Some (any_string "object") ∧
      (declaresProperties tool →
       schema !! "properties" = Some (any_map (mcp.Properties (mcp.InputSchema tool)))) ∧
      (¬ declaresProperties tool →
       schema !! "properties" = Some (any_map (Some ∅))) ∧
      (mcp.Required (mcp.InputSchema tool) ≠ [] →
       schema !! "required" = Some (any_strings (mcp.Required (mcp.InputSchema tool)))) ∧
      (mcp.Required (mcp.InputSchema tool) = [] → schema !! "required" = None) ∧
      (∀ k : string, is_Some (schema !! k) → k = "type" ∨ k = "properties" ∨ k = "required").
Proof.
  rewrite convertToolsSchema_map. split; [by rewrite length_map|].
  intros i tool Hi. exists (openaiTool tool). split.
  { change (map openaiTool) with (fmap (M := list) openaiTool). by rewrite list_lookup_fmap, Hi. }
  simpl. repeat split.
  - apply toolSchema_type.
  - apply toolSchema_properties_declared.
  - apply toolSchema_properties_synthesized.
  - intros Hne. rewrite toolSchema_required. by destruct (mcp.Required _).
  - intros Heq. rewrite toolSchema_required. by rewrite Heq.
  - apply toolSchema_keys.
Qed.

Lemma descriptorOf_Properties (tool : mcp.Tool) :
  mcp.Properties (mcp.InputSchema (descriptorOf (openaiTool tool))) =
    if Nat.ltb 0 (map_len (mcp.Properties (mcp.InputSchema tool)))
    then mcp.Properties (mcp.InputSchema tool)
    else Some ∅.
Proof.
  change (mcp.Properties (mcp.InputSchema (descriptorOf (openaiTool tool))))
    with (match toolSchema tool !! "properties" with
          | Some (any_map m) => m
          | _ => None
          end).
  destruct (Nat.ltb 0 (map_len _)) eqn:Hlen.
  - assert (Hd : declaresProperties tool) by by apply map_len_positive.
    by rewrite (toolSchema_properties_declared _ Hd).
  - assert (Hd : ¬ declaresProperties tool).
    { intros Hd. apply map_len_positive in Hd. congruence. }
    by rewrite (toolSchema_properties_synthesized _ Hd).
Qed.

Lemma descriptorOf_Required (tool : mcp.Tool) :
  mcp.Required (mcp.InputSchema (descriptorOf (openaiTool tool))) =
    mcp.Required (mcp.InputSchema tool).
Proof.
  change (mcp.Required (mcp.InputSchema (descriptorOf (openaiTool tool))))
    with (match toolSchema tool !! "required" with
          | Some (any_strings l) => l
          | _ => []
          end).
  rewrite toolSchema_required. by destruct (mcp.Required _).
Qed.

Lemma toolSchema_descriptorOf (tool : mcp.Tool) :
  toolSchema (descriptorOf (openaiTool tool)) = toolSchema tool.
Proof.
  unfold toolSchema.
  rewrite descriptorOf_Properties, descriptorOf_Required.
  destruct (Nat.ltb 0 (map_len (mcp.Properties (mcp.InputSchema tool)))) eqn:Hlen.
  - by rewrite Hlen.
  - simpl. by rewrite map_size_empty.
Qed.

(** C8.  Translating is idempotent: reading the translated tools back as
    descriptors and translating them again gives the same tools. *)
Theorem convertToolsSchema_idempotent (tools : mcp.ListToolsResult) :
  convertToolsSchema {| mcp.Tools := map descriptorOf (convertToolsSchema tools) |}
  = convertToolsSchema tools.
Proof.
  rewrite !convertToolsSchema_map. simpl. rewrite !map_map.
  apply map_ext. intros tool. unfold openaiTool at 1. simpl.
  by rewrite toolSchema_descriptorOf.
Qed.

(** ** The program monad *)

Section Monad.
Context `{Environment}.

Lemma bind_unfold {A B : Type} (m : Prog A) (k : A → Prog B) (st : State) :
  (m ≫= k) st =
    match m st with
    | (Returned a, st') => k a st'
    | (Fatal msg, st') => (Fatal msg, st')
    | (Panicked p, st') => (Panicked p, st')
    | (Awaiting, st') => (Awaiting, st')
    end.
Proof. reflexivity. Qed.

Lemma bind_Returned {A B : Type} (m : Prog A) (k : A → Prog B) (st st' : State) (a : A) :
  m st = (Returned a, st') → (m ≫= k) st = k a st'.
Proof. intros Hm. by rewrite bind_unfold, Hm. Qed.

Lemma bind_Fatal {A B : Type} (m : Prog A) (k : A → Prog B) (st st' : State) (msg : string) :
  m st = (Fatal msg, st') → (m ≫= k) st = (Fatal msg, st').
Proof. intros Hm. by rewrite bind_unfold, Hm. Qed.

Lemma bind_Panicked {A B : Type} (m : Prog A) (k : A → Prog B) (st st' : State) (p : PanicValue) :
  m st = (Panicked p, st') → (m ≫= k) st = (Panicked p, st').
Proof. intros Hm. by rewrite bind_unfold, Hm. Qed.

Lemma completionCalls_app (l1 l2 : list Event) :
  completionCalls (l1 ++ l2) = completionCalls l1 + completionCalls l2.
Proof.
  induction l1 as [|e l1 IH]; [done|]. destruct e; simpl; rewrite IH; lia.
Qed.

End Monad.

(** ** The tool dispatcher *)

Section CallTool.
Context `{Environment}.

Implicit Types (toolCall : openai.ChatCompletionMessageToolCall).
Implicit Types (args : option (gmap string any)) (st : State).

Lemma Sprintf_v_nonempty (content : mcp.Content) : Sprintf_v content ≠ "".
Proof. unfold Sprintf_v. simpl. discriminate. Qed.

(** The payload does not decode: an error is returned, nothing else
    happens. *)
Lemma callTool_undecodable toolCall st (err : string) :
  json_Unmarshal (openai.Function_Arguments (openai.Function toolCall)) = Err err →
  callTool toolCall st =
    (Returned ("", Some (Sprintf "failed to unmarshal tool arguments: %v" err)), st).
Proof. intros Hjson. unfold callTool. by rewrite Hjson. Qed.

(** The sandbox tool without a string under "code": the type assertion
    panics before anything is printed or sent. *)
Lemma callTool_assertion_fails toolCall st args :
  json_Unmarshal (openai.Function_Arguments (openai.Function toolCall)) = Ok args →
  openai.Function_Name (openai.Function toolCall) = "sandbox_run_code" →
  (∀ code : string, map_index args "code" ≠ any_string code) →
  callTool toolCall st =
    (Panicked (InterfaceConversion (typeName (map_index args "code")) "string"), st).
Proof.
  intros Hjson Hname Hcode. unfold callTool. rewrite Hjson, Hname. simpl.
  destruct (map_index args "code") as [| | |code| | |]; try reflexivity.
  by destruct (Hcode code).
Qed.

(** The sandbox tool with a string under "code": the code is printed, the
    request is sent, and the server's answer decides what is returned. *)
Lemma callTool_sandbox toolCall st args (code : string) :
  json_Unmarshal (openai.Function_Arguments (openai.Function toolCall)) = Ok args →
  openai.Function_Name (openai.Function toolCall) = "sandbox_run_code" →
  map_index args "code" = any_string code →
  callTool toolCall st =
    (Returned (returnOf (client_CallTool (callToolRequest toolCall args) (server st)).1),
     {| server := (client_CallTool (callToolRequest toolCall args) (server st)).2;
        trace := trace st ++ [EvStdout (styledBox code "python" +:+ newline);
                              EvCallTool (callToolRequest toolCall args)];
        Messages := Messages st |}).
Proof.
  intros Hjson Hname Hcode. unfold callTool. rewrite Hjson, Hname, Hcode. simpl.
  unfold mbind, Prog_bind, remote, printCodeBox, emit, mret, Prog_ret. simpl.
  destruct (client_CallTool _ _) as [[toolResult|err] s']; simpl;
    by rewrite <- app_assoc.
Qed.

(** Any other tool: the request is sent and nothing is printed. *)
Lemma callTool_other toolCall st args :
  json_Unmarshal (openai.Function_Arguments (openai.Function toolCall)) = Ok args →
  openai.Function_Name (openai.Function toolCall) ≠ "sandbox_run_code" →
  callTool toolCall st =
    (Returned (returnOf (client_CallTool (callToolRequest toolCall args) (server st)).1),
     {| server := (client_CallTool (callToolRequest toolCall args) (server st)).2;
        trace := trace st ++ [EvCallTool (callToolRequest toolCall args)];
        Messages := Messages st |}).
Proof.
  intros Hjson Hname. unfold callTool. rewrite Hjson.
  apply String.eqb_neq in Hname. rewrite Hname.
  unfold mbind, Prog_bind, remote, mret, Prog_ret. simpl.
  by destruct (client_CallTool _ _) as [[toolResult|err] s'].
Qed.

End CallTool.

Section Dispatcher.
Context `{Environment}.

Implicit Types (toolCall : openai.ChatCompletionMessageToolCall).
Implicit Types (args : option (gmap string any)) (st : State).

(** C3.  When the tool server answers a call with a result, [callTool]
    returns without error, and its text is: the empty string for an empty
    content sequence; the first item's text when the first item is
    textual; otherwise the rendering of the first item by [Sprintf_v], a
    function of that item alone, which is never the empty string. *)
Theorem callTool_result_text toolCall args st (toolResult : mcp.CallToolResult)
  (s' : ServerState) :
  json_Unmarshal (openai.Function_Arguments (openai.Function toolCall)) = Ok args →
  (openai.Function_Name (openai.Function toolCall) = "sandbox_run_code" →
   ∃ code : string, map_index args "code" = any_string code) →
  client_CallTool (callToolRequest toolCall args) (server st) = (Ok toolResult, s') →
  ∃ (text : string) (st' : State),
    callTool toolCall st = (Returned (text, None), st') ∧
    server st' = s' ∧
    match mcp.Result_Content toolResult with
    | [] => text = ""
    | mcp.TextContent t :: _ => text = t
    | (mcp.OtherContent _ _ as content) :: _ => text = Sprintf_v content ∧ text ≠ ""
    end.
Proof.
  intros Hjson Hcode Hcall.
  assert (Hshape : match mcp.Result_Content toolResult with
                   | [] => resultText toolResult = ""
                   | mcp.TextContent t :: _ => resultText toolResult = t
                   | (mcp.OtherContent _ _ as content) :: _ =>
                       resultText toolResult = Sprintf_v content ∧ resultText toolResult ≠ ""
                   end).
  { unfold resultText. destruct (mcp.Result_Content toolResult) as [|[t|ty fs] rest]; simpl;
      auto using Sprintf_v_nonempty. }
  destruct (decide (openai.Function_Name (openai.Function toolCall) = "sandbox_run_code"))
    as [Hname|Hname].
  - destruct (Hcode Hname) as [code Hc].
    rewrite (callTool_sandbox _ _ _ _ Hjson Hname Hc), Hcall. simpl. eauto.
  - rewrite (callTool_other _ _ _ Hjson Hname), Hcall. simpl. eauto.
Qed.


(** C9.  [callTool] panics exactly on a call to "sandbox_run_code" whose
    payload decodes to a map without a string under "code": the panic is
    the failed type assertion, it is no returned error, and nothing has
    been printed or sent. *)
Theorem callTool_panics_iff toolCall st :
  (∀ args,
     json_Unmarshal (openai.Function_Arguments (openai.Function toolCall)) = Ok args →
     openai.Function_Name (openai.Function toolCall) = "sandbox_run_code" →
     (∀ code : string, map_index args "code" ≠ any_string code) →
     callTool toolCall st =
       (Panicked (InterfaceConversion (typeName (map_index args "code")) "string"), st)) ∧
  (∀ (p : PanicValue) (st' : State),
     callTool toolCall st = (Panicked p, st') →
     openai.Function_Name (openai.Function toolCall) = "sandbox_run_code" ∧
     ∃ args,
       json_Unmarshal (openai.Function_Arguments (openai.Function toolCall)) = Ok args ∧
       (∀ code : string, map_index args "code" ≠ any_string code) ∧
       p = InterfaceConversion (typeName (map_index args "code")) "string" ∧
       st' = st).
Proof.
  split; [intros args; apply callTool_assertion_fails|].
  intros p st' Hp.
  destruct (json_Unmarshal (openai.Function_Arguments (openai.Function toolCall)))
    as [args|err] eqn:Hjson.
  2: { by rewrite (callTool_undecodable _ _ _ Hjson) in Hp. }
  destruct (decide (openai.Function_Name (openai.Function toolCall) = "sandbox_run_code"))
    as [Hname|Hname].
  2: { by rewrite (callTool_other _ _ _ Hjson Hname) in Hp. }
  split; [done|]. exists args. split; [done|].
  destruct (map_index args "code") as [| | |code| | |] eqn:Hcode;
    try (rewrite (callTool_assertion_fails _ _ _ Hjson Hname) in Hp;
         [ injection Hp as <- <-; rewrite Hcode; by repeat split
         | intros code; by rewrite Hcode ]).
  by rewrite (callTool_sandbox _ _ _ _ Hjson Hname Hcode) in Hp.
Qed.

End Dispatcher.

(** ** The loop over the tool calls of a turn *)

Section ToolCalls.
Context `{Environment}.

Implicit Types (toolCall : openai.ChatCompletionMessageToolCall).
Implicit Types (toolCalls : list openai.ChatCompletionMessageToolCall).
Implicit Types (st : State).

(** [callTool] returns or panics on the type assertion; it makes no
    completion call and leaves the conversation alone. *)
Lemma callTool_cases toolCall st :
  (∃ (ret : string * option string) (st' : State),
     callTool toolCall st = (Returned ret, st') ∧
     Messages st' = Messages st ∧
     completionCalls (trace st') = completionCalls (trace st)) ∨
  (∃ dynamic : string,
     callTool toolCall st = (Panicked (InterfaceConversion dynamic "string"), st)).
Proof.
  destruct (json_Unmarshal (openai.Function_Arguments (openai.Function toolCall)))
    as [args|err] eqn:Hjson.
  2: { left. rewrite (callTool_undecodable _ _ _ Hjson). eauto. }
  destruct (decide (openai.Function_Name (openai.Function toolCall) = "sandbox_run_code"))
    as [Hname|Hname].
  2: { left. rewrite (callTool_other _ _ _ Hjson Hname). eexists _, _.
       split; [reflexivity|]. split; [done|]. simpl.
       rewrite completionCalls_app. simpl. lia. }
  destruct (map_index args "code") as [| | |code| | |] eqn:Hcode;
    try (right; eexists; rewrite (callTool_assertion_fails _ _ _ Hjson Hname);
         [ by rewrite Hcode | intros code; by rewrite Hcode ]).
  left. rewrite (callTool_sandbox _ _ _ _ Hjson Hname Hcode). eexists _, _.
  split; [reflexivity|]. split; [done|]. simpl.
  rewrite completionCalls_app. simpl. lia.
Qed.

Lemma dispatchToolCalls_cons toolCall toolCalls st :
  dispatchToolCalls (toolCall :: toolCalls) st =
    match callTool toolCall st with
    | (Returned (result, None), st1) =>
        dispatchToolCalls toolCalls
          (addMessage (openai.ToolMessage result (openai.ID toolCall)) st1)
    | (Returned (_, Some err), st1) => (Fatal (Sprintf "Failed to call tool: %v" err), st1)
    | (Fatal msg, st1) => (Fatal msg, st1)
    | (Panicked p, st1) => (Panicked p, st1)
    | (Awaiting, st1) => (Awaiting, st1)
    end.
Proof.
  simpl. rewrite bind_unfold.
  destruct (callTool toolCall st) as [[[result [err|]]|msg|p|] st1]; reflexivity.
Qed.

Lemma dispatchToolCalls_app toolCalls1 toolCalls2 st :
  dispatchToolCalls (toolCalls1 ++ toolCalls2) st =
    match dispatchToolCalls toolCalls1 st with
    | (Returned _, st1) => dispatchToolCalls toolCalls2 st1
    | other => other
    end.
Proof.
  revert st. induction toolCalls1 as [|toolCall toolCalls1 IH]; intros st; [done|].
  rewrite <- app_comm_cons, !dispatchToolCalls_cons.
  destruct (callTool toolCall st) as [[[result [err|]]|msg|p|] st1]; try reflexivity.
  apply IH.
Qed.

(** A run of the loop that returns is a run in which every call was
    dispatched and answered in order. *)
Lemma dispatchToolCalls_Dispatched toolCalls st (results : list string) (st' : State) :
  Dispatched st toolCalls results st' → dispatchToolCalls toolCalls st = (Returned (), st').
Proof.
  induction 1 as [st|st st1 st' toolCall toolCalls result results Hcall _ IH]; [done|].
  by rewrite dispatchToolCalls_cons, Hcall.
Qed.

Lemma Dispatched_Messages toolCalls st (results : list string) (st' : State) :
  Dispatched st toolCalls results st' →
  Messages st' = Messages st ++ toolMessages toolCalls results ∧
  length results = length toolCalls ∧
  completionCalls (trace st') = completionCalls (trace st).
Proof.
  induction 1 as [st|st st1 st' toolCall toolCalls result results Hcall _ IH].
  { by rewrite app_nil_r. }
  destruct IH as (IHm & IHl & IHc). simpl in IHm, IHc.
  destruct (callTool_cases toolCall st) as [(ret & st1' & Hret & Hm & Hc)|(d & Hp)];
    [|congruence].
  assert (st1' = st1) as -> by congruence.
  split; [|split].
  - rewrite IHm, Hm. unfold toolMessages. simpl. by rewrite <- app_assoc.
  - simpl. by rewrite IHl.
  - by rewrite IHc.
Qed.

(** The loop either answers every call, or aborts; it never waits for a
    completion and never makes one. *)
Lemma dispatchToolCalls_cases toolCalls st :
  (∃ (results : list string) (st' : State),
     dispatchToolCalls toolCalls st = (Returned (), st') ∧
     Dispatched st toolCalls results st') ∨
  (∃ (o : Outcome unit) (st' : State),
     dispatchToolCalls toolCalls st = (o, st') ∧
     aborted o ∧
     (∀ i n : nat, o ≠ Panicked (IndexOutOfRange i n)) ∧
     completionCalls (trace st') = completionCalls (trace st)).
Proof.
  revert st. induction toolCalls as [|toolCall toolCalls IH]; intros st.
  { left. exists [], st. split; [done|]. constructor. }
  rewrite dispatchToolCalls_cons.
  destruct (callTool_cases toolCall st) as [([result [err|]] & st1 & Hret & Hm & Hc)|(d & Hp)].
  - right. rewrite Hret. eexists _, _. split; [reflexivity|]. by repeat split.
  - rewrite Hret.
    destruct (IH (addMessage (openai.ToolMessage result (openai.ID toolCall)) st1))
      as [(results & st' & Hrun & Hd)|(o & st' & Hrun & Ha & Hi & Hcalls)].
    + left. exists (result :: results), st'. split; [done|]. by econstructor.
    + right. exists o, st'. repeat split; try done. rewrite Hcalls. simpl. done.
  - right. rewrite Hp. eexists _, _. split; [reflexivity|]. by repeat split.
Qed.

(** The three ways a call can end. *)
Lemma callTool_outcomes toolCall st :
  (∃ (result : string) (st1 : State), callTool toolCall st = (Returned (result, None), st1)) ∨
  (∃ (err : string) (st1 : State), callTool toolCall st = (Returned ("", Some err), st1)) ∨
  (∃ p : PanicValue, callTool toolCall st = (Panicked p, st)).
Proof.
  destruct (json_Unmarshal (openai.Function_Arguments (openai.Function toolCall)))
    as [args|err] eqn:Hjson.
  2: { right; left. rewrite (callTool_undecodable _ _ _ Hjson). eauto. }
  assert (Hgo : ∀ st1 : State,
            callTool toolCall st =
              (Returned (returnOf (client_CallTool (callToolRequest toolCall args)
                                     (server st)).1), st1) →
            (∃ (result : string) (st1 : State),
               callTool toolCall st = (Returned (result, None), st1)) ∨
            (∃ (err : string) (st1 : State),
               callTool toolCall st = (Returned ("", Some err), st1)) ∨
            (∃ p : PanicValue, callTool toolCall st = (Panicked p, st))).
  { intros st1 ->. destruct (client_CallTool _ _).1 as [toolResult|err]; simpl; eauto. }
  destruct (decide (openai.Function_Name (openai.Function toolCall) = "sandbox_run_code"))
    as [Hname|Hname].
  2: { eapply Hgo. by apply callTool_other. }
  destruct (map_index args "code") as [| | |code| | |] eqn:Hcode;
    try (right; right; eexists; rewrite (callTool_assertion_fails _ _ _ Hjson Hname);
         [ by rewrite Hcode | intros code; by rewrite Hcode ]).
  eapply Hgo. by eapply callTool_sandbox.
Qed.

(** A call that gives no result ends the process, and has left the
    conversation and the count of completion calls as they were. *)
Lemma Undispatched_frame toolCall st (o : Outcome unit) (st' : State) :
  Undispatched st toolCall o st' →
  aborted o ∧ Messages st' = Messages st ∧
  completionCalls (trace st') = completionCalls (trace st).
Proof.
  intros Hu. split; [by destruct Hu as [(? & _ & ->)|(? & _ & ->)]|].
  destruct (callTool_cases toolCall st) as [(ret & st1 & Hret & Hm & Hc)|(d & Hp)];
    destruct Hu as [(err & Hrun & _)|(p & Hrun & _)]; try congruence.
  - assert (st1 = st') as -> by congruence. by split.
  - assert (st' = st) as -> by congruence. by split.
Qed.

(** The loop over the calls either dispatches them all, or stops at the
    first call that gives no result, in the state that call left, after
    dispatching the calls before it. *)
Lemma dispatchToolCalls_first_failure toolCalls :
  ∀ st,
    (∃ (results : list string) (st' : State),
       Dispatched st toolCalls results st' ∧
       dispatchToolCalls toolCalls st = (Returned (), st')) ∨
    (∃ (before : list openai.ChatCompletionMessageToolCall) toolCall
       (after : list openai.ChatCompletionMessageToolCall)
       (results : list string) (st1 : State) (o : Outcome unit) (st' : State),
       toolCalls = before ++ toolCall :: after ∧
       Dispatched st before results st1 ∧
       Undispatched st1 toolCall o st' ∧
       dispatchToolCalls toolCalls st = (o, st')).
Proof.
  induction toolCalls as [|toolCall toolCalls IH]; intros st.
  { left. exists [], st. split; [constructor|done]. }
  rewrite dispatchToolCalls_cons.
  destruct (callTool_outcomes toolCall st)
    as [(result & st0 & Hrun)|[(err & st0 & Hrun)|(p & Hrun)]]; rewrite Hrun.
  - destruct (IH (addMessage (openai.ToolMessage result (openai.ID toolCall)) st0))
      as [(results & st' & Hd & Hloop)
         |(before & failing & after & results & st1 & o & st' & -> & Hd & Hu & Hloop)].
    + left. exists (result :: results), st'. split; [by econstructor|done].
    + right. exists (toolCall :: before), failing, after, (result :: results), st1, o, st'.
      split; [done|]. split; [by econstructor|]. by split.
  - right.
    exists [], toolCall, toolCalls, [], st, (Fatal (Sprintf "Failed to call tool: %v" err)), st0.
    split; [done|]. split; [constructor|]. split; [|done]. left. eauto.
  - right. exists [], toolCall, toolCalls, [], st, (Panicked p), st.
    split; [done|]. split; [constructor|]. split; [|done]. right. eauto.
Qed.

End ToolCalls.

(** ** The loop of [main] *)

Section AgentLoop.
Context `{Environment}.

Implicit Types (toolsSchema : list openai.ChatCompletionToolParam) (model : string).
Implicit Types (responses : list (result openai.ChatCompletion)) (st : State).
Implicit Types (completion : openai.ChatCompletion) (choice : openai.ChatCompletionChoice).

Lemma agentLoop_nil toolsSchema model st :
  agentLoop toolsSchema model [] st =
    (Awaiting, addEvents [completionEvent toolsSchema model st] st).
Proof. reflexivity. Qed.

Lemma agentLoop_Err toolsSchema model responses st (err : string) :
  agentLoop toolsSchema model (Err err :: responses) st =
    (Fatal (Sprintf "Failed to create chat completion: %v" err),
     addEvents [completionEvent toolsSchema model st] st).
Proof. reflexivity. Qed.

Lemma agentLoop_no_choice toolsSchema model responses st completion :
  openai.Choices completion = [] →
  agentLoop toolsSchema model (Ok completion :: responses) st =
    (Panicked (IndexOutOfRange 0 0), addEvents [completionEvent toolsSchema model st] st).
Proof.
  intros Hc. simpl. unfold mbind, Prog_bind, index. simpl. by rewrite Hc.
Qed.

Lemma agentLoop_stop toolsSchema model responses st completion choice
  (more : list openai.ChatCompletionChoice) :
  openai.Choices completion = choice :: more →
  openai.ToolCalls (openai.Message choice) = [] →
  agentLoop toolsSchema model (Ok completion :: responses) st =
    (Returned (),
     addEvents (completionEvent toolsSchema model st
                :: contentDisplay (openai.Content (openai.Message choice))) st).
Proof.
  intros Hc Ht. simpl. unfold mbind, Prog_bind, index, contentDisplay. simpl.
  rewrite Hc. simpl. rewrite Ht. simpl.
  destruct (String.eqb _ ""); [reflexivity|].
  unfold addEvents. simpl. by rewrite <- app_assoc.
Qed.

Lemma agentLoop_turn toolsSchema model responses st completion choice
  (more : list openai.ChatCompletionChoice) :
  openai.Choices completion = choice :: more →
  openai.ToolCalls (openai.Message choice) ≠ [] →
  agentLoop toolsSchema model (Ok completion :: responses) st =
    match dispatchToolCalls (openai.ToolCalls (openai.Message choice))
            (turnStart toolsSchema model (openai.Message choice) st) with
    | (Returned _, st2) => agentLoop toolsSchema model responses st2
    | (Fatal msg, st2) => (Fatal msg, st2)
    | (Panicked p, st2) => (Panicked p, st2)
    | (Awaiting, st2) => (Awaiting, st2)
    end.
Proof.
  intros Hc Ht.
  assert (Hn : Nat.eqb (length (openai.ToolCalls (openai.Message choice))) 0 = false).
  { destruct (openai.ToolCalls _); [done|reflexivity]. }
  simpl. unfold mbind, Prog_bind, index, turnStart, contentDisplay. simpl.
  rewrite Hc. simpl. rewrite Hn.
  destruct (String.eqb _ ""); simpl; rewrite <- ?app_assoc; reflexivity.
Qed.

#[local] Arguments agentLoop : simpl never.
#[local] Arguments dispatchToolCalls : simpl never.

Lemma completionCalls_contentDisplay (content : string) :
  completionCalls (contentDisplay content) = 0.
Proof. unfold contentDisplay. by destruct (String.eqb content ""). Qed.

Lemma turnStart_calls toolsSchema model (message : openai.ChatCompletionMessage) st :
  completionCalls (trace (turnStart toolsSchema model message st)) =
    S (completionCalls (trace st)).
Proof.
  simpl. rewrite completionCalls_app. simpl.
  rewrite completionCalls_contentDisplay. lia.
Qed.

Lemma turnStart_Messages toolsSchema model (message : openai.ChatCompletionMessage) st :
  Messages (turnStart toolsSchema model message st) =
    Messages st ++ [openai.AssistantMessage (openai.Content message) (openai.ToolCalls message)].
Proof. reflexivity. Qed.

Lemma callTool_trace (toolCall : openai.ChatCompletionMessageToolCall) st :
  ∃ events : list Event, trace (callTool toolCall st).2 = trace st ++ events.
Proof.
  destruct (json_Unmarshal (openai.Function_Arguments (openai.Function toolCall)))
    as [args|err] eqn:Hjson.
  2: { rewrite (callTool_undecodable _ _ _ Hjson). exists []. by rewrite app_nil_r. }
  destruct (decide (openai.Function_Name (openai.Function toolCall) = "sandbox_run_code"))
    as [Hname|Hname].
  2: { rewrite (callTool_other _ _ _ Hjson Hname). eauto. }
  destruct (map_index args "code") as [| | |code| | |] eqn:Hcode;
    try (rewrite (callTool_assertion_fails _ _ _ Hjson Hname);
         [ exists []; by rewrite app_nil_r | intros code; by rewrite Hcode ]).
  rewrite (callTool_sandbox _ _ _ _ Hjson Hname Hcode). eauto.
Qed.

Lemma dispatchToolCalls_trace (toolCalls : list openai.ChatCompletionMessageToolCall) :
  ∀ st, ∃ events : list Event, trace (dispatchToolCalls toolCalls st).2 = trace st ++ events.
Proof.
  induction toolCalls as [|toolCall toolCalls IH]; intros st.
  { exists []. by rewrite app_nil_r. }
  rewrite dispatchToolCalls_cons.
  destruct (callTool_trace toolCall st) as [events Hev].
  destruct (callTool toolCall st) as [[[result [err|]]|msg|p|] st1]; simpl in Hev; eauto.
  destruct (IH (addMessage (openai.ToolMessage result (openai.ID toolCall)) st1))
    as [events' Hev'].
  exists (events ++ events'). rewrite Hev'. simpl. by rewrite Hev, app_assoc.
Qed.

(** Every run of the loop starts with a completion call that carries the
    conversation of the state it starts in. *)
Lemma agentLoop_first_event toolsSchema model responses :
  ∀ st, ∃ later : list Event,
    trace (agentLoop toolsSchema model responses st).2 =
      trace st ++ completionEvent toolsSchema model st :: later.
Proof.
  induction responses as [|[completion|err] responses IH]; intros st.
  - rewrite agentLoop_nil. by exists [].
  - destruct (openai.Choices completion) as [|choice more] eqn:Hc.
    { rewrite agentLoop_no_choice by done. by exists []. }
    destruct (openai.ToolCalls (openai.Message choice)) as [|tc tcs] eqn:Ht.
    { erewrite agentLoop_stop by done. eauto. }
    erewrite agentLoop_turn; [|done|by rewrite Ht]. rewrite Ht.
    destruct (dispatchToolCalls_trace (tc :: tcs)
                (turnStart toolsSchema model (openai.Message choice) st)) as [events Hev].
    destruct (dispatchToolCalls (tc :: tcs) _) as [[[]|msg|p|] st2]; simpl in Hev |- *;
      try (eexists; rewrite Hev, <- app_assoc; simpl; reflexivity).
    destruct (IH st2) as [later Hlater]. rewrite Hlater, Hev.
    eexists. rewrite <- !app_assoc. simpl. reflexivity.
  - rewrite agentLoop_Err. by exists [].
Qed.


(** The tool message of the call at index [i] stands at index [i] after
    the assistant's message. *)
Lemma toolMessages_lookup (toolCalls : list openai.ChatCompletionMessageToolCall)
  (results : list string) (before after : list openai.ChatCompletionMessageParamUnion)
  (assistant : openai.ChatCompletionMessageParamUnion) (i : nat)
  (toolCall : openai.ChatCompletionMessageToolCall) :
  length results = length toolCalls →
  after = before ++ assistant :: toolMessages toolCalls results →
  toolCalls !! i = Some toolCall →
  ∃ result : string,
    results !! i = Some result ∧
    after !! (length before + 1 + i) = Some (openai.ToolMessage result (openai.ID toolCall)).
Proof.
  intros Hlen -> Hi.
  destruct (results !! i) as [result|] eqn:Hr.
  2: { apply lookup_ge_None in Hr. apply lookup_lt_Some in Hi. lia. }
  exists result. split; [done|].
  rewrite lookup_app_r by lia.
  replace (length before + 1 + i - length before) with (S i) by lia.
  simpl. unfold toolMessages. by rewrite lookup_zip_with, Hi, Hr.
Qed.


(** C2.  A turn whose response carries tool calls.  Whenever every call
    of the turn is dispatched and answered, the conversation has grown by
    the assistant's message followed by one tool message per call, in the
    order of the calls, each under its call's identifier with the text
    [callTool] returned for it; no completion call was made meanwhile, and
    the loop goes on with the next completion call, which carries this
    conversation.  The only other course is that some call gives no
    result, by a returned error or a panic: then the calls before it have
    been dispatched, the process ends in the state that call left, with
    the assistant's message and the tool messages of the calls before it,
    and no further completion call is made. *)
Theorem agentLoop_tool_turn toolsSchema model responses st completion choice
  (more : list openai.ChatCompletionChoice) :
  openai.Choices completion = choice :: more →
  openai.ToolCalls (openai.Message choice) ≠ [] →
  let message := openai.Message choice in
  let toolCalls := openai.ToolCalls message in
  (∀ (results : list string) (st2 : State),
     Dispatched (turnStart toolsSchema model message st) toolCalls results st2 →
     length results = length toolCalls ∧
     Messages st2 =
       Messages st ++ openai.AssistantMessage (openai.Content message) toolCalls
                   :: toolMessages toolCalls results ∧
     (∀ (i : nat) (toolCall : openai.ChatCompletionMessageToolCall),
        toolCalls !! i = Some toolCall →
        ∃ result : string,
          results !! i = Some result ∧
          Messages st2 !! (length (Messages st) + 1 + i) =
            Some (openai.ToolMessage result (openai.ID toolCall))) ∧
     completionCalls (trace st2) = S (completionCalls (trace st)) ∧
     agentLoop toolsSchema model (Ok completion :: responses) st =
       agentLoop toolsSchema model responses st2 ∧
     ∃ later : list Event,
       trace (agentLoop toolsSchema model responses st2).2 =
         trace st2 ++ completionEvent toolsSchema model st2 :: later) ∧
  ((∃ (results : list string) (st2 : State),
      Dispatched (turnStart toolsSchema model message st) toolCalls results st2) ∨
   (∃ (before : list openai.ChatCompletionMessageToolCall)
      (toolCall : openai.ChatCompletionMessageToolCall)
      (after : list openai.ChatCompletionMessageToolCall)
      (results : list string) (st1 : State) (o : Outcome unit) (st2 : State),
      toolCalls = before ++ toolCall :: after ∧
      Dispatched (turnStart toolsSchema model message st) before results st1 ∧
      Undispatched st1 toolCall o st2 ∧
      agentLoop toolsSchema model (Ok completion :: responses) st = (o, st2) ∧
      aborted o ∧
      Messages st2 =
        Messages st ++ openai.AssistantMessage (openai.Content message) toolCalls
                    :: toolMessages before results ∧
      completionCalls (trace st2) = S (completionCalls (trace st)))).
Proof.
  intros Hc Hne message toolCalls.
  rewrite (agentLoop_turn _ _ _ _ _ _ _ Hc Hne). fold message toolCalls. split.
  - intros results st2 Hd.
    rewrite (dispatchToolCalls_Dispatched _ _ _ _ Hd).
    destruct (Dispatched_Messages _ _ _ _ Hd) as (Hm & Hl & Hcalls).
    rewrite turnStart_calls in Hcalls. rewrite turnStart_Messages, <- app_assoc in Hm.
    split; [done|]. split; [done|]. split.
    { intros i toolCall Hi. eapply toolMessages_lookup; [exact Hl|exact Hm|exact Hi]. }
    split; [done|]. split; [done|]. apply agentLoop_first_event.
  - destruct (dispatchToolCalls_first_failure toolCalls
                (turnStart toolsSchema model message st))
      as [(results & st2 & Hd & _)
         |(before & toolCall & after & results & st1 & o & st2 & Heq & Hd & Hu & Hrun)].
    { left. eauto. }
    right. exists before, toolCall, after, results, st1, o, st2.
    destruct (Undispatched_frame _ _ _ _ Hu) as (Ha & Hm & Hcalls).
    destruct (Dispatched_Messages _ _ _ _ Hd) as (Hm1 & _ & Hcalls1).
    rewrite turnStart_calls in Hcalls1. rewrite turnStart_Messages, <- app_assoc in Hm1.
    split; [done|]. split; [done|]. split; [done|].
    split; [rewrite Hrun; by destruct o|]. split; [done|].
    split; [by rewrite Hm, Hm1|]. by rewrite Hcalls, Hcalls1.
Qed.

(** C10.  A completion with an empty list of choices makes the loop panic
    on [Choices[0]], index out of range, right after the completion call:
    no error is reported.  When every completion has a choice the loop
    never panics that way. *)
Theorem agentLoop_empty_choices toolsSchema model :
  (∀ responses st completion,
     openai.Choices completion = [] →
     agentLoop toolsSchema model (Ok completion :: responses) st =
       (Panicked (IndexOutOfRange 0 0),
        addEvents [completionEvent toolsSchema model st] st)) ∧
  (∀ responses st (i n : nat),
     Forall hasChoice responses →
     (agentLoop toolsSchema model responses st).1 ≠ Panicked (IndexOutOfRange i n)).
Proof.
  split; [intros; by apply agentLoop_no_choice|].
  intros responses st i n Hall. revert st.
  induction Hall as [|[completion|err] responses Hr _ IH]; intros st.
  - by rewrite agentLoop_nil.
  - simpl in Hr. destruct (openai.Choices completion) as [|choice more] eqn:Hc; [done|].
    destruct (openai.ToolCalls (openai.Message choice)) as [|tc tcs] eqn:Ht.
    { by erewrite agentLoop_stop. }
    erewrite agentLoop_turn; [|done|by rewrite Ht]. rewrite Ht.
    destruct (dispatchToolCalls_cases (tc :: tcs)
                (turnStart toolsSchema model (openai.Message choice) st))
      as [(results & st2 & -> & _)|(o & st2 & -> & Ha & Hi & _)].
    + apply IH.
    + destruct o; [done|done|apply Hi|done].
  - by rewrite agentLoop_Err.
Qed.

(** C6, as amended.  A tool call whose payload [json.Unmarshal] rejects.  [callTool]
    returns the decoding error and does nothing else: nothing is printed,
    the tool server is not called.  In the loop over a turn's calls, once
    the calls before it are answered, the process is ended by [log.Fatal]
    in the state those calls left: the conversation holds their tool
    messages and none for this call or a later one.  The loop of [main]
    therefore ends in that turn and makes no further completion call. *)
Theorem callTool_malformed_arguments (toolCall : openai.ChatCompletionMessageToolCall)
  (err : string) :
  json_Unmarshal (openai.Function_Arguments (openai.Function toolCall)) = Err err →
  let decodeError := Sprintf "failed to unmarshal tool arguments: %v" err in
  (∀ st, callTool toolCall st = (Returned ("", Some decodeError), st)) ∧
  (∀ (before after : list openai.ChatCompletionMessageToolCall) st
     (results : list string) (st1 : State),
     Dispatched st before results st1 →
     dispatchToolCalls (before ++ toolCall :: after) st =
       (Fatal (Sprintf "Failed to call tool: %v" decodeError), st1) ∧
     Messages st1 = Messages st ++ toolMessages before results) ∧
  (∀ toolsSchema model responses st completion choice
     (more : list openai.ChatCompletionChoice)
     (before after : list openai.ChatCompletionMessageToolCall),
     openai.Choices completion = choice :: more →
     openai.ToolCalls (openai.Message choice) = before ++ toolCall :: after →
     ∃ (o : Outcome unit) (st' : State),
       agentLoop toolsSchema model (Ok completion :: responses) st = (o, st') ∧
       aborted o ∧
       completionCalls (trace st') = S (completionCalls (trace st)) ∧
       ∀ (results : list string) (st1 : State),
         Dispatched (turnStart toolsSchema model (openai.Message choice) st)
           before results st1 →
         o = Fatal (Sprintf "Failed to call tool: %v" decodeError) ∧ st' = st1).
Proof.
  intros Hjson decodeError.
  assert (Hcall : ∀ st, callTool toolCall st = (Returned ("", Some decodeError), st)).
  { intros st. by apply callTool_undecodable. }
  assert (Hloop : ∀ before after st results st1,
            Dispatched st before results st1 →
            dispatchToolCalls (before ++ toolCall :: after) st =
              (Fatal (Sprintf "Failed to call tool: %v" decodeError), st1)).
  { intros before after st results st1 Hd.
    rewrite dispatchToolCalls_app, (dispatchToolCalls_Dispatched _ _ _ _ Hd).
    by rewrite dispatchToolCalls_cons, Hcall. }
  split; [done|]. split.
  { intros before after st results st1 Hd. split; [by eapply Hloop|].
    by apply Dispatched_Messages in Hd as (? & _). }
  intros toolsSchema model responses st completion choice more before after Hc Ht.
  assert (Hne : openai.ToolCalls (openai.Message choice) ≠ []).
  { rewrite Ht. by destruct before. }
  rewrite (agentLoop_turn _ _ _ _ _ _ _ Hc Hne), Ht.
  destruct (dispatchToolCalls_cases before
              (turnStart toolsSchema model (openai.Message choice) st))
    as [(results & st1 & Hrun & Hd)|(o & st1 & Hrun & Ha & _ & Hcalls)].
  - rewrite (Hloop _ _ _ _ _ Hd). eexists _, _. split; [reflexivity|]. split; [done|].
    split.
    + apply Dispatched_Messages in Hd as (_ & _ & Hcalls).
      by rewrite Hcalls, turnStart_calls.
    + intros results' st1' Hd'. apply dispatchToolCalls_Dispatched in Hd'.
      split; [done|]. congruence.
  - rewrite dispatchToolCalls_app, Hrun. exists o, st1.
    split; [by destruct o|]. split; [done|]. split.
    + by rewrite Hcalls, turnStart_calls.
    + intros results st2 Hd. apply dispatchToolCalls_Dispatched in Hd.
      rewrite Hd in Hrun. injection Hrun as <- <-. done.
Qed.

End AgentLoop.

(** ** Discovery *)

Section Discovery.
Context `{Environment}.

Implicit Types (st : State) (s : Session).

(** A fatal exit of [toolList] is the exit of [main]: the deferred close
    does not run, and nothing follows. *)
Lemma main_toolList_Fatal s st (msg : string) (st' : State) :
  NewStreamableHttpClient s = None →
  client_Start s = None →
  toolList st = (Fatal msg, st') →
  main s st = (Fatal msg, st').
Proof.
  intros Hnew Hstart Hlist. unfold main. rewrite Hnew, Hstart.
  unfold defer. by rewrite (bind_Fatal _ _ _ _ _ Hlist).
Qed.

(** C5.  [toolList] makes the handshake once and, if it succeeds, lists
    the tools once.  A failed handshake, a failed listing and an empty
    listing each end the process by [log.Fatal], with nothing tried again;
    a listing with at least one tool is returned as it is.  In [main] a
    client that cannot be created or started ends the process before
    discovery, and a fatal exit of discovery is the exit of [main], before
    any completion call. *)
Theorem toolList_discovery st :
  let handshake := client_Initialize initRequest (server st) in
  let listing := client_ListTools handshake.2 in
  let shaken :=
    {| server := handshake.2; trace := trace st ++ [EvInitialize initRequest];
       Messages := Messages st |} in
  let listed :=
    {| server := listing.2; trace := trace st ++ [EvInitialize initRequest; EvListTools];
       Messages := Messages st |} in
  (∀ err : string,
     handshake.1 = Some err →
     toolList st = (Fatal (Sprintf "Failed to initialize MCP client: %v" err), shaken)) ∧
  (∀ err : string,
     handshake.1 = None → listing.1 = Err err →
     toolList st = (Fatal (Sprintf "Failed to list tools: %v" err), listed)) ∧
  (∀ toolsResult : mcp.ListToolsResult,
     handshake.1 = None → listing.1 = Ok toolsResult → mcp.Tools toolsResult = [] →
     toolList st = (Fatal "No tools available from MCP server", listed)) ∧
  (∀ toolsResult : mcp.ListToolsResult,
     handshake.1 = None → listing.1 = Ok toolsResult → mcp.Tools toolsResult ≠ [] →
     toolList st = (Returned toolsResult, listed)) ∧
  (∀ s (err : string),
     NewStreamableHttpClient s = Some err →
     main s st = (Fatal (Sprintf "Failed to create MCP client: %v" err), st)) ∧
  (∀ s (err : string),
     NewStreamableHttpClient s = None → client_Start s = Some err →
     main s st = (Fatal (Sprintf "Failed to start MCP client: %v" err), st)) ∧
  (∀ s (msg : string) (st' : State),
     NewStreamableHttpClient s = None → client_Start s = None →
     toolList st = (Fatal msg, st') →
     main s st = (Fatal msg, st') ∧
     completionCalls (trace st') = completionCalls (trace st)).
Proof.
  intros handshake listing shaken listed.
  assert (Hrun : toolList st =
                 match handshake.1 with
                 | Some err => (Fatal (Sprintf "Failed to initialize MCP client: %v" err), shaken)
                 | None =>
                     match listing.1 with
                     | Err err => (Fatal (Sprintf "Failed to list tools: %v" err), listed)
                     | Ok toolsResult =>
                         match mcp.Tools toolsResult with
                         | [] => (Fatal "No tools available from MCP server", listed)
                         | _ :: _ => (Returned toolsResult, listed)
                         end
                     end
                 end).
  { unfold toolList, mbind, Prog_bind, remote. subst shaken listed listing handshake.
    destruct (client_Initialize initRequest (server st)) as [[err|] s1]; simpl; [done|].
    destruct (client_ListTools s1) as [[toolsResult|err] s2]; simpl.
    - rewrite <- app_assoc. simpl. by destruct (mcp.Tools toolsResult).
    - by rewrite <- app_assoc. }
  split; [intros err Herr; by rewrite Hrun, Herr|].
  split; [intros err Hok Herr; by rewrite Hrun, Hok, Herr|].
  split; [intros toolsResult Hok Hlist Hnil; by rewrite Hrun, Hok, Hlist, Hnil|].
  split.
  { intros toolsResult Hok Hlist Hne. rewrite Hrun, Hok, Hlist.
    by destruct (mcp.Tools toolsResult). }
  split; [intros s err Hnew; unfold main; by rewrite Hnew|].
  split; [intros s err Hnew Hstart; unfold main; by rewrite Hnew, Hstart|].
  intros s msg st' Hnew Hstart Hfatal. split; [by apply main_toolList_Fatal|].
  assert (Hcalls : ∀ events : list Event,
            completionCalls events = 0 →
            completionCalls (trace st ++ events) = completionCalls (trace st)).
  { intros events Hz. rewrite completionCalls_app, Hz. lia. }
  rewrite Hrun in Hfatal.
  destruct handshake.1 as [err|]; [injection Hfatal as _ <-; by apply Hcalls|].
  destruct listing.1 as [toolsResult|err]; [|injection Hfatal as _ <-; by apply Hcalls].
  destruct (mcp.Tools toolsResult); [|done].
  injection Hfatal as _ <-. by apply Hcalls.
Qed.

End Discovery.

(** ** The theorems at the concrete environment *)

Section Examples.

#[local] Existing Instance sampleEnv.


Lemma agentLoop_tool_turn_witness :
  openai.Choices (completionOf "" [sandboxCall]) = [choiceOf "" [sandboxCall]] ∧
  openai.ToolCalls (openai.Message (choiceOf "" [sandboxCall])) ≠ [] ∧
  ∃ st2 : State,
    Dispatched
      (turnStart [] defaultModel (openai.Message (choiceOf "" [sandboxCall])) seeded)
      [sandboxCall] ["42"] st2 ∧
    Messages st2 =
      Messages seeded ++ openai.AssistantMessage "" [sandboxCall]
                      :: toolMessages [sandboxCall] ["42"] ∧
    completionCalls (trace st2) = S (completionCalls (trace seeded)) ∧
    agentLoop [] defaultModel (Ok (completionOf "" [sandboxCall]) :: [completion "42" []])
      seeded
      = agentLoop [] defaultModel [completion "42" []] st2.
Proof.
  split; [reflexivity|]. split; [discriminate|].
  assert (Hd : ∃ st2 : State,
            Dispatched
              (turnStart [] defaultModel (openai.Message (choiceOf "" [sandboxCall])) seeded)
              [sandboxCall] ["42"] st2).
  { eexists.
    apply (Dispatched_cons _
             (callTool sandboxCall
                (turnStart [] defaultModel (openai.Message (choiceOf "" [sandboxCall]))
                   seeded)).2);
      [reflexivity|apply Dispatched_nil]. }
  destruct Hd as [st2 Hd]. exists st2. split; [exact Hd|].
  destruct (proj1 (agentLoop_tool_turn (H := sampleEnv) [] defaultModel [completion "42" []]
                     seeded (completionOf "" [sandboxCall]) (choiceOf "" [sandboxCall]) []
                     eq_refl ltac:(discriminate))
              ["42"] st2 Hd) as (_ & Hm & _ & Hcalls & Hrun & _).
  split; [exact Hm|]. split; [exact Hcalls|exact Hrun].
Defined.

Lemma callTool_result_text_witness :
  json_Unmarshal "{}" = Ok (Some ∅) ∧
  (∃ (text : string) (st' : State),
     callTool (toolCall "call_2" "sandbox_plot" "{}") seeded = (Returned (text, None), st') ∧
     server st' = 3 ∧
     text = Sprintf_v (mcp.OtherContent "image" ["aGk="; "image/png"]) ∧ text ≠ "").
Proof.
  split; [reflexivity|].
  apply (callTool_result_text (H := sampleEnv) (toolCall "call_2" "sandbox_plot" "{}")
           (Some ∅) seeded
           {| mcp.Result_Content := [mcp.OtherContent "image" ["aGk="; "image/png"]];
              mcp.IsError := false |} 3).
  - reflexivity.
  - discriminate.
  - reflexivity.
Defined.

Lemma callTool_malformed_arguments_witness :
  json_Unmarshal "oops" = Err "invalid character 'o' looking for beginning of value" ∧
  callTool (toolCall "call_3" "sandbox_run_code" "oops") seeded =
    (Returned ("", Some "failed to unmarshal tool arguments: invalid character 'o' looking for beginning of value"),
     seeded) ∧
  ∃ (o : Outcome unit) (st' : State),
    agentLoop [] defaultModel
      [completion "" ([sandboxCall] ++ toolCall "call_3" "sandbox_run_code" "oops" :: [])]
      seeded = (o, st') ∧
    aborted o ∧
    completionCalls (trace st') = S (completionCalls (trace seeded)).
Proof.
  split; [reflexivity|].
  destruct (callTool_malformed_arguments (H := sampleEnv)
              (toolCall "call_3" "sandbox_run_code" "oops")
              "invalid character 'o' looking for beginning of value" eq_refl)
    as (Hcall & _ & Hloop).
  split; [exact (Hcall seeded)|].
  destruct (Hloop [] defaultModel [] seeded
              (completionOf "" ([sandboxCall]
                                ++ toolCall "call_3" "sandbox_run_code" "oops" :: []))
              (choiceOf "" ([sandboxCall]
                            ++ toolCall "call_3" "sandbox_run_code" "oops" :: []))
              [] [sandboxCall] [] eq_refl eq_refl)
    as (o & st' & Hrun & Ha & Hcalls & _).
  exists o, st'. split; [exact Hrun|]. split; [exact Ha|exact Hcalls].
Defined.

(** C6, the counterexample.  The payload null is valid JSON and encodes no
    key-value mapping, yet [json.Unmarshal] decodes it without error and
    leaves the map nil.  So [callTool] returns no error for it: the tool is
    invoked, with nil arguments, and the loop over the calls appends a
    tool message for the call. *)
Lemma callTool_null_payload :
  beginsObject "null" = false ∧
  callTool (toolCall "call_8" "sandbox_stop" "null") seeded =
    (Returned ("", None),
     @Build_State sampleEnv 3
       [ EvCallTool {| mcp.Call_Method := "tools/call";
                       mcp.Params := {| mcp.Call_Name := "sandbox_stop";
                                        mcp.Call_Arguments := None |} |} ]
       (Messages seeded)) ∧
  (dispatchToolCalls [toolCall "call_8" "sandbox_stop" "null"] seeded).1 = Returned () ∧
  Messages (dispatchToolCalls [toolCall "call_8" "sandbox_stop" "null"] seeded).2 =
    Messages seeded ++ [openai.ToolMessage "" "call_8"].
Proof. repeat split; reflexivity. Qed.


Lemma convertToolsSchema_shape_witness :
  length (convertToolsSchema {| mcp.Tools := [sample_tool; bare_tool] |}) = 2 ∧
  ∃ p : openai.ChatCompletionToolParam,
    convertToolsSchema {| mcp.Tools := [sample_tool; bare_tool] |} !! 1 = Some p ∧
    openai.Name (openai.Tool_Function p) = "sandbox_stop" ∧
    openai.Parameters (openai.Tool_Function p) !! "type" = Some (any_string "object") ∧
    openai.Parameters (openai.Tool_Function p) !! "properties" = Some (any_map (Some ∅)) ∧
    openai.Parameters (openai.Tool_Function p) !! "required" = None.
Proof.
  destruct (convertToolsSchema_shape {| mcp.Tools := [sample_tool; bare_tool] |})
    as (Hlen & Hall).
  split; [exact Hlen|].
  destruct (Hall 1 bare_tool eq_refl)
    as (p & Hp & Hname & _ & Htype & _ & Hsyn & _ & Hreq & _).
  exists p. split; [exact Hp|]. split; [exact Hname|]. split; [exact Htype|].
  split; [|exact (Hreq eq_refl)].
  apply Hsyn. intros (g & Hg & _). discriminate Hg.
Defined.

Lemma convertToolsSchema_idempotent_witness :
  convertToolsSchema
    {| mcp.Tools := map descriptorOf
                      (convertToolsSchema {| mcp.Tools := [sample_tool; bare_tool] |}) |}
  = convertToolsSchema {| mcp.Tools := [sample_tool; bare_tool] |}.
Proof.
  exact (convertToolsSchema_idempotent {| mcp.Tools := [sample_tool; bare_tool] |}).
Defined.

Lemma callTool_panics_iff_witness :
  callTool (toolCall "call_6" "sandbox_run_code" "null") seeded =
    (Panicked (InterfaceConversion "nil" "string"), seeded) ∧
  callTool (toolCall "call_7" "sandbox_run_code" numberPayload) seeded =
    (Panicked (InterfaceConversion "float64" "string"), seeded).
Proof.
  split.
  - refine (proj1 (callTool_panics_iff (H := sampleEnv)
                     (toolCall "call_6" "sandbox_run_code" "null") seeded)
              None eq_refl eq_refl _).
    intros code. discriminate.
  - refine (proj1 (callTool_panics_iff (H := sampleEnv)
                     (toolCall "call_7" "sandbox_run_code" numberPayload) seeded)
              (Some {[ "code" := any_float64 "1" ]}) eq_refl eq_refl _).
    intros code. discriminate.
Defined.

Lemma agentLoop_empty_choices_witness :
  agentLoop [] defaultModel [Ok {| openai.Choices := [] |}; completion "42" []] seeded =
    (Panicked (IndexOutOfRange 0 0), addEvents [completionEvent [] defaultModel seeded] seeded) ∧
  (agentLoop [] defaultModel [completion "" [sandboxCall]; completion "42" []] seeded).1
    ≠ Panicked (IndexOutOfRange 0 0).
Proof.
  destruct (agentLoop_empty_choices (H := sampleEnv) [] defaultModel) as (Hpanic & Hsafe).
  split.
  - exact (Hpanic [completion "42" []] seeded {| openai.Choices := [] |} eq_refl).
  - apply Hsafe. repeat constructor; discriminate.
Defined.

End Examples.

Lemma toolList_discovery_witness :
  @toolList unreachableEnv (start unreachableEnv 0) =
    (Fatal "Failed to initialize MCP client: connection refused",
     @Build_State unreachableEnv 1 [EvInitialize (@initRequest unreachableEnv)] []) ∧
  @toolList emptyEnv (start emptyEnv 0) =
    (Fatal "No tools available from MCP server",
     @Build_State emptyEnv 2 [EvInitialize (@initRequest emptyEnv); EvListTools] []) ∧
  @toolList sampleEnv (start sampleEnv 0) =
    (Returned {| mcp.Tools := [sample_tool; bare_tool] |},
     @Build_State sampleEnv 2 [EvInitialize (@initRequest sampleEnv); EvListTools] []) ∧
  @main emptyEnv sampleSession (start emptyEnv 0) =
    (Fatal "No tools available from MCP server",
     @Build_State emptyEnv 2 [EvInitialize (@initRequest emptyEnv); EvListTools] []).
Proof.
  destruct (toolList_discovery (H := unreachableEnv) (start unreachableEnv 0))
    as (Hshake & _).
  destruct (toolList_discovery (H := emptyEnv) (start emptyEnv 0))
    as (_ & _ & Hnone & _ & _ & _ & Hmain).
  destruct (toolList_discovery (H := sampleEnv) (start sampleEnv 0))
    as (_ & _ & _ & Hsome & _).
  split; [exact (Hshake "connection refused" eq_refl)|].
  split; [exact (Hnone {| mcp.Tools := [] |} eq_refl eq_refl eq_refl)|].
  split.
  - refine (Hsome {| mcp.Tools := [sample_tool; bare_tool] |} eq_refl eq_refl _).
    discriminate.
  - exact (proj1 (Hmain sampleSession "No tools available from MCP server" _ eq_refl eq_refl
                    (Hnone {| mcp.Tools := [] |} eq_refl eq_refl eq_refl))).
Defined.

(** ** The scenarios of the specification, evaluated *)

(** The end-to-end scenario: the task "compute 7*6", a first response that
    asks for the sandbox, a second that answers "42".  [main] returns
    after two completion calls; the conversation ends with the assistant's
    message and the tool message "42" under the call's identifier, and the
    last thing printed is the box around "42". *)
Example end_to_end :
  let run := @main sampleEnv sampleSession (start sampleEnv 0) in
  run.1 = Returned () ∧
  completionCalls (trace run.2) = 2 ∧
  Messages run.2 =
    systemMessages ++
    [ openai.UserMessage "compute 7*6";
      openai.AssistantMessage "" [sandboxCall];
      openai.ToolMessage "42" "call_1" ] ∧
  last (trace run.2) = Some EvClose ∧
  trace run.2 !! 7 = Some (EvStdout ("[42]" +:+ newline)).
Proof. vm_compute. repeat split; reflexivity. Qed.

(** The round trip: the payload with the code 1+1, sent to the sandbox
    tool that answers "2": the result is "2", and the code was shown
    before the call. *)
Example round_trip :
  @callTool sampleEnv (toolCall "call_4" "sandbox_run_code" (codePayload "1+1")) seeded =
    (Returned ("2", None),
     @Build_State sampleEnv 3
       [ EvStdout ("[1+1]" +:+ newline);
         EvCallTool {| mcp.Call_Method := "tools/call";
                       mcp.Params := {| mcp.Call_Name := "sandbox_run_code";
                                        mcp.Call_Arguments :=
                                          Some {[ "code" := any_string "1+1" ]} |} |} ]
       (Messages seeded)).
Proof. reflexivity. Qed.

(** The same call with code the sandbox cannot run: the code is shown all
    the same, and the error of the call is returned. *)
Example code_shown_when_call_fails :
  @callTool sampleEnv (toolCall "call_5" "sandbox_run_code" (codePayload "1/0")) seeded =
    (Returned ("", Some "failed to call tool: sandbox: cannot evaluate"),
     @Build_State sampleEnv 3
       [ EvStdout ("[1/0]" +:+ newline);
         EvCallTool {| mcp.Call_Method := "tools/call";
                       mcp.Params := {| mcp.Call_Name := "sandbox_run_code";
                                        mcp.Call_Arguments :=
                                          Some {[ "code" := any_string "1/0" ]} |} |} ]
       (Messages seeded)).
Proof. reflexivity. Qed.

(** The pager is read before it is advanced: the list of models starts
    with the empty identifier. *)
Example fetchModels_sample :
  fetchModels (["google/gemini-2.5-flash"; "openai/gpt-4o"], None) =
    ([""; "google/gemini-2.5-flash"; "openai/gpt-4o"], None).
Proof. reflexivity. Qed.

(** * Further properties *)

(** ** The list of models *)

Lemma fetchModels_from_spec (rest : list string) :
  ∀ (cur : string) (err : option string) (res : list string),
    fetchModels_from cur rest err res =
      match err with
      | Some e => ([], Some e)
      | None => (res ++ cur :: rest, None)
      end.
Proof.
  induction rest as [|next rest IH]; intros cur err res; simpl.
  - by destruct err.
  - rewrite IH. destruct err; [done|]. by rewrite <- app_assoc.
Qed.

(** X1.  [fetchModels] reads [models.Current()] before the first
    [models.Next()]: over a pager that yields [ids] and ends without error
    it returns the empty identifier followed by [ids], so one entry more
    than the pager yields, even for an empty pager; when the pager ends
    with an error it returns that error and no list. *)
Theorem fetchModels_result (ids : list string) :
  fetchModels (ids, None) = ("" :: ids, None) ∧
  length (fetchModels (ids, None)).1 = S (length ids) ∧
  ∀ err : string, fetchModels (ids, Some err) = ([], Some err).
Proof.
  unfold fetchModels. simpl. rewrite !fetchModels_from_spec. simpl.
  split; [done|]. split; [done|]. intros err. by rewrite fetchModels_from_spec.
Qed.

(** ** Names of the translated tools *)

(** X8.  The translated tools carry the descriptors' names in the
    descriptors' order; tools with pairwise distinct names are therefore
    offered under pairwise distinct names. *)
Theorem convertToolsSchema_names (tools : mcp.ListToolsResult) :
  map offeredName (convertToolsSchema tools) = map mcp.Tool_Name (mcp.Tools tools) ∧
  (NoDup (map mcp.Tool_Name (mcp.Tools tools)) →
   NoDup (map offeredName (convertToolsSchema tools))).
Proof.
  assert (Hnames : map offeredName (convertToolsSchema tools)
                   = map mcp.Tool_Name (mcp.Tools tools)).
  { rewrite convertToolsSchema_map, map_map. by apply map_ext. }
  split; [done|]. by rewrite Hnames.
Qed.

(** ** Events *)

Section Events.
Context `{Environment}.

Lemma emits_mono {A : Type} (P Q : Event → Prop) (m : Prog A) :
  (∀ e, P e → Q e) → emits P m → emits Q m.
Proof.
  intros HPQ Hm st. destruct (Hm st) as (events & Ht & Hall).
  exists events. split; [done|]. by eapply Forall_impl.
Qed.

Lemma emits_nothing {A : Type} (P : Event → Prop) (m : Prog A) :
  (∀ st, trace (m st).2 = trace st) → emits P m.
Proof. intros Hm st. exists []. by rewrite app_nil_r, Hm. Qed.

Lemma emits_bind {A B : Type} (P : Event → Prop) (m : Prog A) (k : A → Prog B) :
  emits P m → (∀ a, emits P (k a)) → emits P (m ≫= k).
Proof.
  intros Hm Hk st. rewrite bind_unfold.
  destruct (Hm st) as (events & Ht & Hall).
  destruct (m st) as [[a|msg|p|] st1]; simpl in Ht; eauto.
  destruct (Hk a st1) as (events' & Ht' & Hall').
  exists (events ++ events'). rewrite Ht', Ht, app_assoc. split; [done|].
  by apply Forall_app.
Qed.

Lemma emits_emit (P : Event → Prop) (e : Event) : P e → emits P (emit e).
Proof. intros He st. exists [e]. split; [done|]. by constructor. Qed.

Lemma emits_remote {A : Type} (P : Event → Prop) (e : Event)
  (call : ServerState → A * ServerState) :
  P e → emits P (remote e call).
Proof.
  intros He st. exists [e]. unfold remote. destruct (call (server st)).
  split; [done|]. by constructor.
Qed.

Lemma callTool_emits (toolCall : openai.ChatCompletionMessageToolCall) :
  emits dispatchEvent (callTool toolCall).
Proof.
  unfold callTool. destruct (json_Unmarshal _) as [args|err]; [|by apply emits_nothing].
  apply emits_bind.
  - destruct (String.eqb _ _); [|by apply emits_nothing].
    apply emits_bind; [|intros code; by apply emits_emit].
    unfold assertString. destruct (map_index args "code"); by apply emits_nothing.
  - intros _. apply emits_bind; [by apply emits_remote|].
    intros [toolResult|err]; by apply emits_nothing.
Qed.

Lemma dispatchToolCalls_emits (toolCalls : list openai.ChatCompletionMessageToolCall) :
  emits dispatchEvent (dispatchToolCalls toolCalls).
Proof.
  induction toolCalls as [|toolCall toolCalls IH]; [by apply emits_nothing|].
  simpl. apply emits_bind; [apply callTool_emits|].
  intros [result [err|]]; [by apply emits_nothing|].
  apply emits_bind; [by apply emits_nothing|]. intros _. apply IH.
Qed.

Lemma agentLoop_emits toolsSchema model (responses : list (result openai.ChatCompletion)) :
  emits loopEvent (agentLoop toolsSchema model responses).
Proof.
  induction responses as [|r responses IH].
  - simpl. apply emits_bind; [by apply emits_nothing|]. intros messages.
    apply emits_bind; [by apply emits_emit|]. intros _. by apply emits_nothing.
  - simpl. apply emits_bind; [by apply emits_nothing|]. intros messages.
    apply emits_bind; [by apply emits_emit|]. intros _.
    destruct r as [completion|err]; [|by apply emits_nothing].
    apply emits_bind.
    { unfold index. destruct (_ !! 0); by apply emits_nothing. }
    intros choice. apply emits_bind.
    { destruct (String.eqb _ _); [by apply emits_nothing|by apply emits_emit]. }
    intros _. destruct (Nat.eqb _ 0); [by apply emits_nothing|].
    apply emits_bind; [by apply emits_nothing|]. intros _.
    apply emits_bind; [|intros _; apply IH].
    eapply emits_mono; [|apply dispatchToolCalls_emits]. by intros [].
Qed.

Lemma toolList_emits : emits discoveryEvent toolList.
Proof.
  unfold toolList. apply emits_bind; [by apply emits_remote|].
  intros [err|]; [by apply emits_nothing|].
  apply emits_bind; [by apply emits_remote|].
  intros [toolsResult|err]; [|by apply emits_nothing].
  destruct (Nat.eqb _ 0); by apply emits_nothing.
Qed.

End Events.

(** ** Tool invocations of a turn *)

Section Invocations.
Context `{Environment}.

Implicit Types (toolCall : openai.ChatCompletionMessageToolCall).
Implicit Types (toolCalls : list openai.ChatCompletionMessageToolCall) (st : State).

#[local] Arguments dispatchToolCalls : simpl never.

Lemma invocationsOf_app (l1 l2 : list Event) :
  invocationsOf (l1 ++ l2) = invocationsOf l1 ++ invocationsOf l2.
Proof. induction l1 as [|[] l1 IH]; simpl; by rewrite ?IH. Qed.

(** What one call does to the tool server: it sends the request for the
    call and goes on, or it sends it and the call fails, or it sends
    nothing and does not go on. *)
Lemma callTool_invocation toolCall st :
  (∃ (req : mcp.CallToolRequest) (events : list Event) (result : string) (st1 : State),
     callTool toolCall st = (Returned (result, None), st1) ∧
     trace st1 = trace st ++ events ∧ invocationsOf events = [req] ∧ sentFor toolCall req) ∨
  (∃ (req : mcp.CallToolRequest) (events : list Event) (err : string) (st1 : State),
     callTool toolCall st = (Returned ("", Some err), st1) ∧
     trace st1 = trace st ++ events ∧ invocationsOf events = [req] ∧ sentFor toolCall req) ∨
  ((∃ err : string, callTool toolCall st = (Returned ("", Some err), st)) ∨
   (∃ p : PanicValue, callTool toolCall st = (Panicked p, st))).
Proof.
  destruct (json_Unmarshal (openai.Function_Arguments (openai.Function toolCall)))
    as [args|err] eqn:Hjson.
  2: { right; right; left. rewrite (callTool_undecodable _ _ _ Hjson). eauto. }
  assert (Hsent : sentFor toolCall (callToolRequest toolCall args)) by by exists args.
  assert (Hgo : ∀ (events : list Event) (st1 : State),
            callTool toolCall st =
              (Returned (returnOf (client_CallTool (callToolRequest toolCall args)
                                     (server st)).1), st1) →
            trace st1 = trace st ++ events →
            invocationsOf events = [callToolRequest toolCall args] →
            (∃ req events result st1,
               callTool toolCall st = (Returned (result, None), st1) ∧
               trace st1 = trace st ++ events ∧ invocationsOf events = [req] ∧
               sentFor toolCall req) ∨
            (∃ req events err st1,
               callTool toolCall st = (Returned ("", Some err), st1) ∧
               trace st1 = trace st ++ events ∧ invocationsOf events = [req] ∧
               sentFor toolCall req) ∨
            ((∃ err : string, callTool toolCall st = (Returned ("", Some err), st)) ∨
             (∃ p : PanicValue, callTool toolCall st = (Panicked p, st)))).
  { intros events st1 Hrun Ht Hi. rewrite Hrun.
    destruct (client_CallTool _ _).1 as [toolResult|err]; simpl.
    - left. by eexists _, events, _, st1.
    - right; left. by eexists _, events, _, st1. }
  destruct (decide (openai.Function_Name (openai.Function toolCall) = "sandbox_run_code"))
    as [Hname|Hname].
  2: { eapply Hgo; [by apply callTool_other|done|done]. }
  destruct (map_index args "code") as [| | |code| | |] eqn:Hcode;
    try (right; right; right; eexists;
         rewrite (callTool_assertion_fails _ _ _ Hjson Hname);
         [ by rewrite Hcode | intros code; by rewrite Hcode ]).
  eapply Hgo; [by eapply callTool_sandbox|done|done].
Qed.

Lemma Dispatched_invocations toolCalls st (results : list string) (st' : State) :
  Dispatched st toolCalls results st' →
  ∃ events : list Event,
    trace st' = trace st ++ events ∧ Forall2 sentFor toolCalls (invocationsOf events).
Proof.
  induction 1 as [st|st st1 st' toolCall toolCalls result results Hcall _ IH].
  { exists []. rewrite app_nil_r. split; [done|constructor]. }
  destruct IH as (events' & Ht' & Hall). simpl in Ht'.
  destruct (callTool_invocation toolCall st)
    as [(req & events & result' & st1' & Hrun & Ht & Hi & Hs)
       |[(req & events & err & st1' & Hrun & _)|[(err & Hrun)|(p & Hrun)]]];
    try congruence.
  assert (st1' = st1) as -> by congruence.
  exists (events ++ events'). rewrite Ht', Ht, app_assoc. split; [done|].
  rewrite invocationsOf_app, Hi. by constructor.
Qed.

Lemma Undispatched_invocations toolCall st (o : Outcome unit) (st' : State) :
  Undispatched st toolCall o st' →
  ∃ events : list Event,
    trace st' = trace st ++ events ∧
    (invocationsOf events = [] ∨
     ∃ req : mcp.CallToolRequest, invocationsOf events = [req] ∧ sentFor toolCall req).
Proof.
  intros Hu.
  assert (Hnone : ∀ result st1, callTool toolCall st ≠ (Returned (result, None), st1)).
  { intros result st1 Hrun.
    destruct Hu as [(err & Hrun' & _)|(p & Hrun' & _)]; congruence. }
  assert (Hst : ∀ o' : Outcome (string * option string),
            callTool toolCall st = (o', st) → callTool toolCall st = (o', st') → st' = st)
    by congruence.
  destruct (callTool_invocation toolCall st)
    as [(req & events & result & st1 & Hrun & _)
       |[(req & events & err & st1 & Hrun & Ht & Hi & Hs)|[(err & Hrun)|(p & Hrun)]]].
  - by destruct (Hnone _ _ Hrun).
  - assert (st' = st1) as ->.
    { destruct Hu as [(err' & Hrun' & _)|(p & Hrun' & _)]; congruence. }
    exists events. split; [done|]. right. eauto.
  - assert (st' = st) as ->.
    { destruct Hu as [(err' & Hrun' & _)|(p & Hrun' & _)]; congruence. }
    exists []. rewrite app_nil_r. split; [done|by left].
  - assert (st' = st) as ->.
    { destruct Hu as [(err' & Hrun' & _)|(p' & Hrun' & _)]; congruence. }
    exists []. rewrite app_nil_r. split; [done|by left].
Qed.

(** X4.  The requests the loop over the calls of a turn sends to the tool
    server.  When every call is dispatched, the server is sent exactly
    one request per call, in the order of the calls, each under its
    call's name with the arguments its payload decodes to.  Otherwise
    the loop stops at the first call that gives no result, in the very
    state that call left: the server has been sent the requests of the
    calls before it, followed at most by the request of that call, and
    none of the calls after it. *)
Theorem dispatchToolCalls_invocations toolCalls st :
  (∃ (results : list string) (st' : State) (events : list Event),
     Dispatched st toolCalls results st' ∧
     dispatchToolCalls toolCalls st = (Returned (), st') ∧
     trace st' = trace st ++ events ∧
     Forall2 sentFor toolCalls (invocationsOf events)) ∨
  (∃ (before : list openai.ChatCompletionMessageToolCall) toolCall
     (after : list openai.ChatCompletionMessageToolCall)
     (results : list string) (st1 : State) (o : Outcome unit) (st' : State)
     (events : list Event),
     toolCalls = before ++ toolCall :: after ∧
     Dispatched st before results st1 ∧
     Undispatched st1 toolCall o st' ∧
     dispatchToolCalls toolCalls st = (o, st') ∧
     trace st' = trace st ++ events ∧
     (Forall2 sentFor before (invocationsOf events) ∨
      Forall2 sentFor (before ++ [toolCall]) (invocationsOf events))).
Proof.
  destruct (dispatchToolCalls_first_failure toolCalls st)
    as [(results & st' & Hd & Hrun)
       |(before & toolCall & after & results & st1 & o & st' & Heq & Hd & Hu & Hrun)].
  - left. destruct (Dispatched_invocations _ _ _ _ Hd) as (events & Ht & Hall).
    by exists results, st', events.
  - right. destruct (Dispatched_invocations _ _ _ _ Hd) as (events & Ht & Hall).
    destruct (Undispatched_invocations _ _ _ _ Hu) as (events' & Ht' & Hi).
    exists before, toolCall, after, results, st1, o, st', (events ++ events').
    split; [done|]. split; [done|]. split; [done|]. split; [done|].
    split; [by rewrite Ht', Ht, app_assoc|].
    rewrite invocationsOf_app.
    destruct Hi as [->|(req & -> & Hs)].
    + left. by rewrite app_nil_r.
    + right. apply Forall2_app; [done|]. by repeat constructor.
Qed.

End Invocations.

(** ** The requests of a run of the loop *)

Section Requests.
Context `{Environment}.

Implicit Types (toolsSchema : list openai.ChatCompletionToolParam) (model : string).
Implicit Types (responses : list (result openai.ChatCompletion)) (st : State).

#[local] Arguments agentLoop : simpl never.
#[local] Arguments dispatchToolCalls : simpl never.

Lemma requestsOf_app (l1 l2 : list Event) :
  requestsOf (l1 ++ l2) = requestsOf l1 ++ requestsOf l2.
Proof. induction l1 as [|[] l1 IH]; simpl; by rewrite ?IH. Qed.

Lemma requestsOf_dispatch (events : list Event) :
  Forall dispatchEvent events → requestsOf events = [].
Proof. induction 1 as [|[] events He _ IH]; simpl; done. Qed.

Lemma requestsOf_contentDisplay (content : string) :
  requestsOf (contentDisplay content) = [].
Proof. unfold contentDisplay. by destruct (String.eqb content ""). Qed.

(** The loop over the calls of a turn only ever appends to the
    conversation. *)
Lemma dispatchToolCalls_grows (toolCalls : list openai.ChatCompletionMessageToolCall) :
  ∀ st, Messages st `prefix_of` Messages (dispatchToolCalls toolCalls st).2.
Proof.
  induction toolCalls as [|toolCall toolCalls IH]; intros st; [done|].
  rewrite dispatchToolCalls_cons.
  destruct (callTool_cases toolCall st) as [([result [err|]] & st1 & -> & Hm & _)|(d & ->)];
    simpl; try by rewrite ?Hm.
  etrans; [|apply IH]. simpl. rewrite Hm. by apply prefix_app_r.
Qed.

(** The events a turn with tool calls adds before the loop goes on or the
    process ends: the completion call, the text, and those of the
    dispatch, which hold no completion call. *)
Lemma turn_events toolsSchema model (message : openai.ChatCompletionMessage) st :
  ∃ events : list Event,
    trace (dispatchToolCalls (openai.ToolCalls message)
             (turnStart toolsSchema model message st)).2 =
      trace st ++ completionEvent toolsSchema model st :: events ∧
    requestsOf events = [].
Proof.
  destruct (dispatchToolCalls_emits (openai.ToolCalls message)
              (turnStart toolsSchema model message st)) as (events & Ht & Hall).
  exists (contentDisplay (openai.Content message) ++ events). split.
  - rewrite Ht. simpl. by rewrite <- app_assoc.
  - by rewrite requestsOf_app, requestsOf_contentDisplay, (requestsOf_dispatch _ Hall).
Qed.

(** X3.  The completion calls of a run of the loop.  The first carries the
    conversation the loop starts with.  Every one carries the same tools
    and the same model, and a conversation that extends the starting one
    and is extended by the one the run ends with.  Each call's
    conversation extends that of every earlier call: the conversation is
    only ever appended to. *)
Theorem agentLoop_requests toolsSchema model responses :
  ∀ st, ∃ (events : list Event) (rest : list openai.ChatCompletionNewParams),
    trace (agentLoop toolsSchema model responses st).2 = trace st ++ events ∧
    requestsOf events =
      {| openai.Tools := toolsSchema; openai.Model := model;
         openai.Messages := Messages st |} :: rest ∧
    Forall (λ p, openai.Tools p = toolsSchema ∧ openai.Model p = model ∧
                 Messages st `prefix_of` openai.Messages p ∧
                 openai.Messages p
                   `prefix_of` Messages (agentLoop toolsSchema model responses st).2)
      (requestsOf events) ∧
    (∀ (i j : nat) (p q : openai.ChatCompletionNewParams),
       (i ≤ j)%nat →
       requestsOf events !! i = Some p → requestsOf events !! j = Some q →
       openai.Messages p `prefix_of` openai.Messages q).
Proof.
  assert (Hone : ∀ st (o : Outcome unit) (st' : State) (events : list Event),
            trace st' = trace st ++ completionEvent toolsSchema model st :: events →
            requestsOf events = [] →
            Messages st `prefix_of` Messages st' →
            ∃ (events : list Event) (rest : list openai.ChatCompletionNewParams),
              trace (o, st').2 = trace st ++ events ∧
              requestsOf events =
                {| openai.Tools := toolsSchema; openai.Model := model;
                   openai.Messages := Messages st |} :: rest ∧
              Forall (λ p, openai.Tools p = toolsSchema ∧ openai.Model p = model ∧
                           Messages st `prefix_of` openai.Messages p ∧
                           openai.Messages p `prefix_of` Messages (o, st').2)
                (requestsOf events) ∧
              (∀ (i j : nat) (p q : openai.ChatCompletionNewParams),
                 (i ≤ j)%nat →
                 requestsOf events !! i = Some p → requestsOf events !! j = Some q →
                 openai.Messages p `prefix_of` openai.Messages q)).
  { intros st o st' events Ht Hr Hm. eexists _, []. split; [exact Ht|].
    simpl. rewrite Hr. split; [done|]. split; [by repeat constructor|].
    intros [|i] [|j] p q Hij Hp Hq; simplify_eq/=; done. }
  induction responses as [|[completion|err] responses IH]; intros st.
  - rewrite agentLoop_nil. by apply (Hone st _ _ []).
  - destruct (openai.Choices completion) as [|choice more] eqn:Hc.
    { rewrite agentLoop_no_choice by done. by apply (Hone st _ _ []). }
    destruct (openai.ToolCalls (openai.Message choice)) as [|tc tcs] eqn:Hcalls.
    { erewrite agentLoop_stop by done.
      apply (Hone st _ _ (contentDisplay (openai.Content (openai.Message choice))));
        [done|apply requestsOf_contentDisplay|done]. }
    erewrite agentLoop_turn; [|done|by rewrite Hcalls].
    destruct (turn_events toolsSchema model (openai.Message choice) st)
      as (events & Ht & Hr).
    pose proof (dispatchToolCalls_grows (openai.ToolCalls (openai.Message choice))
                  (turnStart toolsSchema model (openai.Message choice) st)) as Hgrow.
    assert (Hm : Messages st `prefix_of`
                 Messages (dispatchToolCalls (openai.ToolCalls (openai.Message choice))
                             (turnStart toolsSchema model (openai.Message choice) st)).2).
    { etrans; [|exact Hgrow]. simpl. by apply prefix_app_r. }
    destruct (dispatchToolCalls _ _) as [[[]|msg|p|] st2]; simpl in Ht, Hm;
      try by apply (Hone st _ _ events).
    destruct (IH st2) as (events' & rest' & Ht' & Hr' & Hall' & Hchain').
    exists (completionEvent toolsSchema model st :: events ++ events'), (requestsOf events').
    split; [by rewrite Ht', Ht, <- app_assoc|].
    split; [simpl; by rewrite requestsOf_app, Hr|].
    assert (Hst2 : Messages st2
                   `prefix_of` Messages (agentLoop toolsSchema model responses st2).2).
    { rewrite Hr' in Hall'. by apply Forall_cons in Hall' as ((_ & _ & _ & ?) & _). }
    split.
    + simpl. rewrite requestsOf_app, Hr. simpl. constructor.
      * repeat split; [done|]. by etrans.
      * eapply Forall_impl; [exact Hall'|]. intros p (? & ? & ? & ?).
        repeat split; try done. by etrans.
    + simpl. rewrite requestsOf_app, Hr. simpl.
      intros [|i] [|j] p q Hij Hp Hq; simpl in Hp, Hq.
      * by simplify_eq.
      * simplify_eq. simpl.
        assert (Hq' : q ∈ requestsOf events') by by eapply list_elem_of_lookup_2.
        rewrite Forall_forall in Hall'. destruct (Hall' q Hq') as (_ & _ & ? & _).
        by etrans.
      * lia.
      * eapply (Hchain' i j); [lia|done|done].
  - rewrite agentLoop_Err. by apply (Hone st _ _ []).
Qed.

(** X5.  When the loop returns, it has consumed the responses up to some
    index [k] and no more: it made [k + 1] completion calls, every
    response before the one at [k] carried a tool call, and on the first
    [k + 1] responses alone the run is the same, while on fewer the loop
    is still waiting.  The response at [k], the one to the last call,
    carried no tool call.  That last call carried the conversation the
    loop ends with, and nothing happened after it but the printing of
    that response's text, if it has one. *)
Theorem agentLoop_final_answer toolsSchema model responses :
  ∀ st (st' : State),
    agentLoop toolsSchema model responses st = (Returned (), st') →
    ∃ (k : nat) (completion : openai.ChatCompletion) (choice : openai.ChatCompletionChoice)
      (more : list openai.ChatCompletionChoice) (before : list Event),
      responses !! k = Some (Ok completion) ∧
      openai.Choices completion = choice :: more ∧
      openai.ToolCalls (openai.Message choice) = [] ∧
      (∀ (j : nat) (r : result openai.ChatCompletion),
         (j < k)%nat → responses !! j = Some r →
         ∃ tc tcs, toolCallsOf r = Some (tc :: tcs)) ∧
      agentLoop toolsSchema model (take (S k) responses) st = (Returned (), st') ∧
      (∀ m : nat, (m ≤ k)%nat →
         (agentLoop toolsSchema model (take m responses) st).1 = Awaiting) ∧
      trace st' = before ++ completionEvent toolsSchema model st'
                         :: contentDisplay (openai.Content (openai.Message choice)) ∧
      completionCalls before = completionCalls (trace st) + k ∧
      completionCalls (trace st') = completionCalls (trace st) + S k.
Proof.
  induction responses as [|[completion|err] responses IH]; intros st st' Hrun.
  - by rewrite agentLoop_nil in Hrun.
  - destruct (openai.Choices completion) as [|choice more] eqn:Hc.
    { by rewrite agentLoop_no_choice in Hrun. }
    destruct (openai.ToolCalls (openai.Message choice)) as [|tc tcs] eqn:Hcalls.
    { pose proof Hrun as Hrun'. erewrite agentLoop_stop in Hrun' by done.
      injection Hrun' as <-.
      exists 0, completion, choice, more, (trace st).
      split; [done|]. split; [done|]. split; [done|].
      split; [intros j r Hj; lia|].
      split; [simpl; by erewrite agentLoop_stop|].
      split; [intros m Hm; assert (m = 0) as -> by lia; by rewrite agentLoop_nil|].
      split; [done|]. split; [lia|].
      simpl. rewrite completionCalls_app. simpl.
      rewrite completionCalls_contentDisplay. lia. }
    assert (Hne : openai.ToolCalls (openai.Message choice) ≠ []) by by rewrite Hcalls.
    pose proof (λ rest, agentLoop_turn toolsSchema model rest st completion choice more
                          Hc Hne) as Hturn.
    rewrite Hturn in Hrun.
    destruct (dispatchToolCalls_cases (openai.ToolCalls (openai.Message choice))
                (turnStart toolsSchema model (openai.Message choice) st))
      as [(results & st2 & Hdisp & Hd)|(o & st2 & Hdisp & Ha & _)].
    2: { rewrite Hdisp in Hrun. by destruct o. }
    rewrite Hdisp in Hrun.
    apply Dispatched_Messages in Hd as (_ & _ & Hcount). rewrite turnStart_calls in Hcount.
    assert (Hstep : ∀ rest, agentLoop toolsSchema model (Ok completion :: rest) st =
                            agentLoop toolsSchema model rest st2).
    { intros rest. by rewrite Hturn, Hdisp. }
    destruct (IH st2 st' Hrun)
      as (k & completion' & choice' & more' & before
          & Hk & Hc' & Ht' & Hall & Htake & Hwait & Htrace & Hbefore & Htotal).
    exists (S k), completion', choice', more', before.
    split; [done|]. split; [done|]. split; [done|]. split.
    { intros [|j] r Hj Hr; simpl in Hr.
      - injection Hr as <-. simpl. rewrite Hc, Hcalls. eauto.
      - eapply Hall; [|done]. lia. }
    split; [simpl; by rewrite Hstep|]. split.
    { intros [|m] Hm; [by rewrite agentLoop_nil|]. simpl. rewrite Hstep. apply Hwait. lia. }
    split; [done|]. split; lia.
  - by rewrite agentLoop_Err in Hrun.
Qed.

End Requests.

(** ** A whole session *)

Section Session.
Context `{Environment}.

Implicit Types (s : Session) (st : State).

#[local] Arguments agentLoop : simpl never.

(** What [main] does once the tools are discovered only prints, calls
    tools and calls the completion API. *)
Lemma showForm_emits s (models : list string) (P : Event → Prop) :
  emits P (showForm s models).
Proof. unfold showForm. destruct (form_Run s) as [[question model]|err]; by apply emits_nothing. Qed.

(** X6.  The events of a session whose MCP client could be created.
    First come those of discovery, the handshake and the listing, and
    discovery never happens again: what follows only prints, calls tools
    and calls the completion API.  The client is closed, last of all,
    exactly when [main] returns or panics; when the process is ended by
    [log.Fatal] the deferred close does not run. *)
Theorem main_trace s st :
  NewStreamableHttpClient s = None →
  ∃ discovery rest : list Event,
    Forall discoveryEvent discovery ∧
    Forall loopEvent rest ∧
    trace (main s st).2 =
      trace st ++ discovery ++ rest ++
      match (main s st).1 with
      | Returned _ | Panicked _ => [EvClose]
      | Fatal _ | Awaiting => []
      end.
Proof.
  intros Hnew. unfold main. rewrite Hnew.
  match goal with |- context [defer EvClose ?b] => set (body := b) end.
  assert (Hbody : ∃ discovery rest : list Event,
            Forall discoveryEvent discovery ∧ Forall loopEvent rest ∧
            trace (body st).2 = trace st ++ discovery ++ rest).
  { subst body. destruct (client_Start s) as [err|].
    { exists [], []. by rewrite !app_nil_r. }
    rewrite bind_unfold.
    destruct (toolList_emits st) as (discovery & Ht & Hd).
    destruct (toolList st) as [[toolsResult|msg|p|] st1]; simpl in Ht;
      try (exists discovery, []; by rewrite app_nil_r).
    match goal with |- context [trace (?k st1).2] =>
      assert (Hk : emits loopEvent k) end.
    { destruct (OPENAI_API_KEY s) as [apiKey|]; [|by apply emits_nothing].
      destruct (fetchModels (ListAutoPaging s)) as [models [err|]];
        [by apply emits_nothing|].
      apply emits_bind; [apply showForm_emits|].
      intros [[question model] [err|]]; [by apply emits_nothing|].
      apply emits_bind; [by apply emits_emit|]. intros _.
      apply emits_bind; [by apply emits_nothing|]. intros _.
      apply agentLoop_emits. }
    destruct (Hk st1) as (rest & Ht' & Hr).
    exists discovery, rest. by rewrite Ht', Ht, app_assoc. }
  destruct Hbody as (discovery & rest & Hd & Hr & Ht).
  exists discovery, rest. split; [done|]. split; [done|].
  unfold defer. destruct (body st) as [[[]|msg|p|] st']; simpl in *;
    rewrite Ht, <- ?app_assoc, ?app_nil_r; done.
Qed.

(** X2.  A session that gets through its start: the client is created
    and started, discovery returns the tools, the key is set, the pager
    ends without error and the form returns a question and a model.
    Then [main] prints the query and makes a first completion call that
    carries the translated tools, the chosen model, and a conversation of
    the four system messages followed by the question, whatever the
    conversation held before. *)
Theorem main_first_request s st (toolsResult : mcp.ListToolsResult) (st1 : State)
  (apiKey question model : string) (models : list string) :
  NewStreamableHttpClient s = None →
  client_Start s = None →
  toolList st = (Returned toolsResult, st1) →
  OPENAI_API_KEY s = Some apiKey →
  fetchModels (ListAutoPaging s) = (models, None) →
  form_Run s = Ok (question, model) →
  ∃ later : list Event,
    trace (main s st).2 =
      trace st1 ++
      EvStdout ("Query: " +:+ question +:+ newline)
      :: EvCompletion {| openai.Tools := convertToolsSchema toolsResult;
                         openai.Model := model;
                         openai.Messages := systemMessages ++ [openai.UserMessage question] |}
      :: later.
Proof.
  intros Hnew Hstart Hlist Hkey Hmodels Hform.
  unfold main. rewrite Hnew, Hstart. unfold defer.
  rewrite (bind_Returned _ _ _ _ _ Hlist), Hkey, Hmodels.
  unfold showForm. rewrite Hform.
  unfold mbind, Prog_bind, mret, Prog_ret, print, emit, setMessages. simpl.
  match goal with |- context [agentLoop ?t ?m ?r ?st0] =>
    destruct (agentLoop_first_event t m r st0) as (later & Hlater);
    destruct (agentLoop t m r st0) as [[[]|msg|p|] st'] end;
    simpl in Hlater |- *; rewrite Hlater, <- ?app_assoc; simpl; eauto.
Qed.

(** X7.  After a successful discovery a session still fails at its
    start when the key is not set, when the pager of models ends with an
    error, or when the form fails.  Each ends the process by [log.Fatal]
    in the state discovery left: the tool server has been contacted, no
    completion call is made and the client is not closed. *)
Theorem main_startup_fatal s st (toolsResult : mcp.ListToolsResult) (st1 : State) :
  NewStreamableHttpClient s = None →
  client_Start s = None →
  toolList st = (Returned toolsResult, st1) →
  (OPENAI_API_KEY s = None →
   main s st = (Fatal "OPENAI_API_KEY environment variable not set", st1)) ∧
  (∀ apiKey err : string,
     OPENAI_API_KEY s = Some apiKey → (ListAutoPaging s).2 = Some err →
     main s st = (Fatal (Sprintf "Failed to fetch models: %v" err), st1)) ∧
  (∀ apiKey err : string,
     OPENAI_API_KEY s = Some apiKey → (ListAutoPaging s).2 = None →
     form_Run s = Err err →
     main s st = (Fatal (Sprintf "Failed to run input: %v" err), st1)).
Proof.
  intros Hnew Hstart Hlist.
  assert (Hmain : main s st =
                  match OPENAI_API_KEY s with
                  | None => (Fatal "OPENAI_API_KEY environment variable not set", st1)
                  | Some _ =>
                      match (ListAutoPaging s).2 with
                      | Some err => (Fatal (Sprintf "Failed to fetch models: %v" err), st1)
                      | None =>
                          match form_Run s with
                          | Err err => (Fatal (Sprintf "Failed to run input: %v" err), st1)
                          | Ok _ => main s st
                          end
                      end
                  end).
  { unfold main at 1. rewrite Hnew, Hstart. unfold defer.
    rewrite (bind_Returned _ _ _ _ _ Hlist).
    destruct (OPENAI_API_KEY s) as [apiKey|] eqn:Hkey; [|done].
    unfold fetchModels. rewrite fetchModels_from_spec.
    destruct (ListAutoPaging s).2 as [err|] eqn:Hpager; [done|].
    destruct (form_Run s) as [[question model]|err] eqn:Hform.
    - unfold main. rewrite Hnew, Hstart. unfold defer.
      rewrite (bind_Returned _ _ _ _ _ Hlist), Hkey.
      unfold fetchModels. by rewrite fetchModels_from_spec, Hpager.
    - unfold showForm. by rewrite bind_unfold, Hform. }
  split; [intros Hkey; by rewrite Hmain, Hkey|].
  split.
  - intros apiKey err Hkey Hpager. by rewrite Hmain, Hkey, Hpager.
  - intros apiKey err Hkey Hpager Hform. by rewrite Hmain, Hkey, Hpager, Hform.
Qed.

End Session.

(** ** The messages a session can end with *)

Section FatalMessages.
Context `{Environment}.

Implicit Types (P : string → Prop).

#[local] Arguments Sprintf : simpl nomatch.

Lemma fatals_never {A : Type} P (m : Prog A) :
  (∀ (st : State) (msg : string), (m st).1 ≠ Fatal msg) → fatals P m.
Proof. intros Hm st st' msg Hrun. destruct (Hm st msg). by rewrite Hrun. Qed.

Lemma fatals_log_Fatal {A : Type} P (msg : string) : P msg → fatals P (log_Fatal (A := A) msg).
Proof. intros HP st st' msg' [= <- _]. done. Qed.

(** A continuation need only be safe on the values the first part can
    return. *)
Lemma fatals_bind {A B : Type} P (Q : A → Prop) (m : Prog A) (k : A → Prog B) :
  (∀ (st st' : State) (a : A), m st = (Returned a, st') → Q a) →
  fatals P m → (∀ a, Q a → fatals P (k a)) → fatals P (m ≫= k).
Proof.
  intros HQ Hm Hk st st' msg. rewrite bind_unfold.
  destruct (m st) as [[a|msg'|p|] st1] eqn:Hrun; try done.
  - by apply (Hk a (HQ _ _ _ Hrun)).
  - intros [= <- _]. by eapply Hm.
Qed.

Lemma fatals_seq {A B : Type} P (m : Prog A) (k : A → Prog B) :
  fatals P m → (∀ a, fatals P (k a)) → fatals P (m ≫= k).
Proof. intros Hm Hk. by apply (fatals_bind P (λ _, True)). Qed.

Lemma callTool_fatals P (toolCall : openai.ChatCompletionMessageToolCall) :
  fatals P (callTool toolCall).
Proof.
  apply fatals_never. intros st msg.
  by destruct (callTool_cases toolCall st) as [(ret & st' & -> & _)|(d & ->)].
Qed.

Lemma dispatchToolCalls_fatals P (toolCalls : list openai.ChatCompletionMessageToolCall) :
  (∀ err : string, P (Sprintf "Failed to call tool: %v" err)) →
  fatals P (dispatchToolCalls toolCalls).
Proof.
  intros HP. induction toolCalls as [|toolCall toolCalls IH]; [by apply fatals_never|].
  simpl. apply fatals_seq; [apply callTool_fatals|].
  intros [result [err|]]; [apply fatals_log_Fatal, HP|].
  apply fatals_seq; [by apply fatals_never|]. intros _. apply IH.
Qed.

Lemma agentLoop_fatals P toolsSchema model (responses : list (result openai.ChatCompletion)) :
  (∀ err : string, P (Sprintf "Failed to call tool: %v" err)) →
  (∀ err : string, P (Sprintf "Failed to create chat completion: %v" err)) →
  fatals P (agentLoop toolsSchema model responses).
Proof.
  intros Hcall Hcreate.
  induction responses as [|r responses IH]; simpl.
  - apply fatals_seq; [by apply fatals_never|]. intros messages.
    apply fatals_seq; [by apply fatals_never|]. intros _. by apply fatals_never.
  - apply fatals_seq; [by apply fatals_never|]. intros messages.
    apply fatals_seq; [by apply fatals_never|]. intros _.
    destruct r as [completion|err]; [|apply fatals_log_Fatal, Hcreate].
    apply fatals_seq.
    { unfold index. destruct (_ !! 0); by apply fatals_never. }
    intros choice. apply fatals_seq.
    { destruct (String.eqb _ _); by apply fatals_never. }
    intros _. destruct (Nat.eqb _ 0); [by apply fatals_never|].
    apply fatals_seq; [by apply fatals_never|]. intros _.
    apply fatals_seq; [by apply dispatchToolCalls_fatals|]. intros _. apply IH.
Qed.

Lemma toolList_fatals P :
  (∀ err : string, P (Sprintf "Failed to initialize MCP client: %v" err)) →
  (∀ err : string, P (Sprintf "Failed to list tools: %v" err)) →
  P "No tools available from MCP server" →
  fatals P toolList.
Proof.
  intros Hinit Hlist Hnone. unfold toolList.
  apply fatals_seq.
  { apply fatals_never. intros st msg. unfold remote. by destruct (client_Initialize _ _). }
  intros [err|]; [apply fatals_log_Fatal, Hinit|].
  apply fatals_seq.
  { apply fatals_never. intros st msg. unfold remote. by destruct (client_ListTools _). }
  intros [toolsResult|err]; [|apply fatals_log_Fatal, Hlist].
  destruct (Nat.eqb _ 0); [by apply fatals_log_Fatal|by apply fatals_never].
Qed.

(** [showForm] never returns an error: it ends the process itself when
    the form fails. *)
Lemma showForm_returns s (models : list string) (st st' : State)
  (question model : string) (err : option string) :
  showForm s models st = (Returned (question, model, err), st') → err = None.
Proof.
  unfold showForm. destruct (form_Run s) as [[q m]|e]; [|done]. by intros [= _ _ <- _].
Qed.

(** X9.  No session ends with the message "Failed to show form": the
    check of the error [showForm] returns in [main] can never fire, as
    [showForm] ends the process itself, with "Failed to run input", when
    the form fails, and no other exit of the program carries that
    message. *)
Theorem main_never_show_form_error s (st st' : State) (msg : string) :
  main s st = (Fatal msg, st') →
  String.prefix "Failed to show form" msg = false.
Proof.
  revert st st' msg. change (fatals (λ msg, String.prefix "Failed to show form" msg = false) (main s)).
  unfold main.
  destruct (NewStreamableHttpClient s) as [err|]; [by apply fatals_log_Fatal|].
  match goal with |- fatals ?P (defer EvClose ?b) =>
    assert (Hbody : fatals P b); [|intros st st' msg; unfold defer;
      destruct (b st) as [[[]|msg'|p|] st1] eqn:Hrun; try done;
      intros [= <- _]; by eapply Hbody] end.
  destruct (client_Start s) as [err|]; [by apply fatals_log_Fatal|].
  apply fatals_seq; [by apply toolList_fatals|]. intros toolsResult.
  destruct (OPENAI_API_KEY s) as [apiKey|]; [|by apply fatals_log_Fatal].
  destruct (fetchModels (ListAutoPaging s)) as [models [err|]];
    [by apply fatals_log_Fatal|].
  apply (fatals_bind _ (λ a, a.2 = None)).
  - intros st st' [[question model] err] Hrun. by eapply showForm_returns.
  - unfold showForm. destruct (form_Run s) as [[question model]|err];
      [by apply fatals_never|by apply fatals_log_Fatal].
  - intros [[question model] err] Herr. simpl in Herr. subst err.
    apply fatals_seq; [by apply fatals_never|]. intros _.
    apply fatals_seq; [by apply fatals_never|]. intros _.
    by apply agentLoop_fatals.
Qed.

End FatalMessages.

(** ** The further theorems at the concrete environment *)

Section FurtherExamples.

#[local] Existing Instance sampleEnv.

Lemma main_first_request_witness :
  ∃ later : list Event,
    trace (main sampleSession (start sampleEnv 0)).2 =
      trace discovered ++
      EvStdout ("Query: " +:+ "compute 7*6" +:+ newline)
      :: EvCompletion {| openai.Tools :=
                           convertToolsSchema {| mcp.Tools := [sample_tool; bare_tool] |};
                         openai.Model := defaultModel;
                         openai.Messages :=
                           systemMessages ++ [openai.UserMessage "compute 7*6"] |}
      :: later.
Proof.
  exact (main_first_request (H := sampleEnv) sampleSession (start sampleEnv 0)
           {| mcp.Tools := [sample_tool; bare_tool] |} discovered
           "sk-test" "compute 7*6" defaultModel [""; "google/gemini-2.5-flash"]
           eq_refl eq_refl eq_refl eq_refl eq_refl eq_refl).
Defined.

Lemma main_trace_witness :
  NewStreamableHttpClient sampleSession = None ∧
  ∃ discovery rest : list Event,
    Forall discoveryEvent discovery ∧
    Forall loopEvent rest ∧
    trace (main sampleSession (start sampleEnv 0)).2 =
      trace (start sampleEnv 0) ++ discovery ++ rest ++
      match (main sampleSession (start sampleEnv 0)).1 with
      | Returned _ | Panicked _ => [EvClose]
      | Fatal _ | Awaiting => []
      end.
Proof.
  split; [reflexivity|].
  exact (main_trace (H := sampleEnv) sampleSession (start sampleEnv 0) eq_refl).
Defined.

Lemma main_startup_fatal_witness :
  OPENAI_API_KEY keylessSession = None ∧
  main keylessSession (start sampleEnv 0) =
    (Fatal "OPENAI_API_KEY environment variable not set", discovered).
Proof.
  split; [reflexivity|].
  exact (proj1 (main_startup_fatal (H := sampleEnv) keylessSession (start sampleEnv 0)
                  {| mcp.Tools := [sample_tool; bare_tool] |} discovered
                  eq_refl eq_refl eq_refl) eq_refl).
Defined.

Lemma agentLoop_final_answer_witness :
  (agentLoop [] defaultModel sampleResponses seeded).1 = Returned () ∧
  ∃ (k : nat) (completion : openai.ChatCompletion) (choice : openai.ChatCompletionChoice)
    (more : list openai.ChatCompletionChoice) (before : list Event),
    sampleResponses !! k = Some (Ok completion) ∧
    openai.Choices completion = choice :: more ∧
    openai.ToolCalls (openai.Message choice) = [] ∧
    (∀ (j : nat) (r : result openai.ChatCompletion),
       (j < k)%nat → sampleResponses !! j = Some r →
       ∃ tc tcs, toolCallsOf r = Some (tc :: tcs)) ∧
    agentLoop [] defaultModel (take (S k) sampleResponses) seeded =
      (Returned (), (agentLoop [] defaultModel sampleResponses seeded).2) ∧
    (∀ m : nat, (m ≤ k)%nat →
       (agentLoop [] defaultModel (take m sampleResponses) seeded).1 = Awaiting) ∧
    trace (agentLoop [] defaultModel sampleResponses seeded).2 =
      before ++ completionEvent [] defaultModel
                  (agentLoop [] defaultModel sampleResponses seeded).2
             :: contentDisplay (openai.Content (openai.Message choice)) ∧
    completionCalls before = completionCalls (trace seeded) + k ∧
    completionCalls (trace (agentLoop [] defaultModel sampleResponses seeded).2) =
      completionCalls (trace seeded) + S k.
Proof.
  split; [reflexivity|].
  apply (agentLoop_final_answer (H := sampleEnv) [] defaultModel sampleResponses seeded).
  reflexivity.
Defined.

End FurtherExamples.

Lemma main_never_show_form_error_witness :
  @main emptyEnv sampleSession (start emptyEnv 0) =
    (Fatal "No tools available from MCP server",
     @Build_State emptyEnv 2 [EvInitialize (@initRequest emptyEnv); EvListTools] []) ∧
  String.prefix "Failed to show form" "No tools available from MCP server" = false.
Proof.
  split; [reflexivity|].
  exact (main_never_show_form_error (H := emptyEnv) sampleSession (start emptyEnv 0)
           (@Build_State emptyEnv 2 [EvInitialize (@initRequest emptyEnv); EvListTools] [])
           "No tools available from MCP server" eq_refl).
Defined.
